(** * BMXNet model converter (smd_hpi/model-converter/main.cpp)

    A shallow embedding of the three functions of main.cpp
    ([convert_to_binary], [convert_params_file], [convert_json_file]) and of
    [main], followed by the properties of the weight packer and of the graph
    annotator.

    Conventions of the embedding.
    - A call either returns, or ends the process: a failed [assert] calls
      abort(), a failed dmlc [CHECK] (and std::out_of_range) is a C++
      exception that nobody catches.  The asserts are modelled as compiled in,
      the way the source is written.
    - The file system and the standard output are threaded explicitly.
    - The libraries the program links against (xnor_cpu.h, mshadow, mxnet's
      NDArray serialisation, rapidjson's parser and writer, libgen) are not
      part of the sources; they are interfaces (type classes) here. *)

From Stdlib Require Import ZArith NArith Ascii String Lia.
From stdpp Require Import base option list strings gmap.
From Equations Require Import Equations.

Local Open Scope Z_scope.

(* ===================================================================== *)
(** * Outcomes of a call *)
(* ===================================================================== *)

Inductive outcome (A : Type) : Type :=
| Returned (a : A)  (* the call returns [a] *)
| Aborted           (* an assert failed: abort() *)
| Thrown            (* an exception left uncaught: std::terminate *)
| Undefined.        (* undefined behaviour (out-of-range operator[]) *)
Arguments Returned {A} a.
Arguments Aborted {A}.
Arguments Thrown {A}.
Arguments Undefined {A}.

(** The process was terminated on the spot (abort or uncaught exception). *)
Definition fatal {A} (r : outcome A) : Prop := r = Aborted ∨ r = Thrown.

#[export] Instance outcome_ret : MRet outcome := @Returned.
#[export] Instance outcome_bind : MBind outcome := fun A B k r =>
  match r with
  | Returned a => k a
  | Aborted => Aborted
  | Thrown => Thrown
  | Undefined => Undefined
  end.

(** [assert(b)] of <cassert> and dmlc's [CHECK(b)]. *)
Definition assert (b : bool) : outcome unit :=
  if b then Returned tt else Aborted.
Definition CHECK (b : bool) : outcome unit :=
  if b then Returned tt else Thrown.

(* ===================================================================== *)
(** * The world: files and standard output *)
(* ===================================================================== *)

(** [files] holds the files that can be opened for reading, with their bytes;
    a path in [unwritable] cannot be opened for writing; [stdout] is the list
    of lines printed so far (one per [std::endl]). *)
Record world : Type := World {
  files : gmap string string;
  unwritable : gset string;
  stdout : list string
}.

Definition prog (A : Type) : Type := world → outcome A * world.

#[export] Instance prog_ret : MRet prog := fun A a w => (Returned a, w).

(** Sequencing: a call that does not return ends the run, and the world is
    left as it was at that point. *)
#[export] Instance prog_bind : MBind prog := fun A B k m w =>
  match m w with
  | (Returned a, w') => k a w'
  | (Aborted, w') => (Aborted, w')
  | (Thrown, w') => (Thrown, w')
  | (Undefined, w') => (Undefined, w')
  end.

Definition lift {A} (r : outcome A) : prog A := fun w => (r, w).

(** [std::cout << ... << std::endl] *)
Definition cout (line : string) : prog unit :=
  fun w => (Returned tt,
            World (files w) (unwritable w) (stdout w ++ [line])).

(** Opening a file for reading: its bytes, or [None] when it cannot be
    opened. *)
Definition open_read (path : string) : prog (option string) :=
  fun w => (Returned (files w !! path), w).

(** Opening a file for writing. *)
Definition can_open_write (path : string) : prog bool :=
  fun w => (Returned (bool_decide (path ∉ unwritable w)), w).

Definition write_file (path content : string) : prog unit :=
  fun w => (Returned tt,
            World (<[path := content]> (files w)) (unwritable w) (stdout w)).

(* ===================================================================== *)
(** * C strings and std::string *)
(* ===================================================================== *)

Definition NUL : ascii := Ascii.zero.

(** What a [const char*] reader sees of a buffer: the characters before the
    first NUL. *)
Fixpoint c_str (s : string) : string :=
  match s with
  | EmptyString => EmptyString
  | String c s' => if Ascii.eqb c NUL then EmptyString else String c (c_str s')
  end.

(** No NUL among the characters of [s]. *)
Fixpoint NUL_free (s : string) : bool :=
  match s with
  | EmptyString => true
  | String c s' => negb (Ascii.eqb c NUL) && NUL_free s'
  end.

Definition uchar (c : ascii) : Z := Z.of_N (N_of_ascii c).

(** [strcmp]: the difference of the first two differing characters (as
    unsigned char), 0 when both strings end together.  The buffers carry
    their terminating NUL after the last character. *)
Fixpoint strcmp (a b : string) : Z :=
  match a, b with
  | EmptyString, EmptyString => 0
  | EmptyString, String d _ => 0 - uchar d
  | String c _, EmptyString => uchar c
  | String c a', String d b' =>
      if Ascii.eqb c d
      then if Ascii.eqb c NUL then 0 else strcmp a' b'
      else uchar c - uchar d
  end.

Fixpoint starts_with (pat s : string) : bool :=
  match pat, s with
  | EmptyString, _ => true
  | String _ _, EmptyString => false
  | String c pat', String d s' => Ascii.eqb c d && starts_with pat' s'
  end.

(** [s.find(pat)]: the first position where [pat] occurs, [None] for npos. *)
Fixpoint find (s pat : string) : option nat :=
  if starts_with pat s then Some 0%nat
  else match s with
       | EmptyString => None
       | String _ s' => S <$> find s' pat
       end.

(** [s.rfind(c)]: the last position of the character [c]. *)
Fixpoint rfind (s : string) (c : ascii) : option nat :=
  match s with
  | EmptyString => None
  | String d s' =>
      match rfind s' c with
      | Some i => Some (S i)
      | None => if Ascii.eqb d c then Some 0%nat else None
      end
  end.

(** [s.erase(pos)] for [pos <= s.size()]: keeps the first [pos] characters. *)
Fixpoint erase (s : string) (pos : nat) : string :=
  match pos, s with
  | O, _ => EmptyString
  | S _, EmptyString => EmptyString
  | S p, String c s' => String c (erase s' p)
  end.

(** [s] contains [pat] as a substring. *)
Definition substring_of (pat s : string) : Prop :=
  ∃ a b, s = a +:+ pat +:+ b.

(* ===================================================================== *)
(** * Tensors *)
(* ===================================================================== *)

(** mxnet::NDArray as the converter sees it: shape (nnvm::TShape), the
    mshadow type flag, and the bytes behind [data().dptr_]. *)
Record NDArray : Type := mkNDArray {
  shape : list N;
  dtype : Z;
  dptr : list Byte.byte
}.

Definition ndim (s : list N) : nat := length s.

(** [TShape::Size()]: the product of the dimensions, accumulated in a
    size_t (64 bits). *)
Definition size_t_max : N := 2 ^ 64.
Definition Size (s : list N) : N :=
  fold_left (fun size d => ((size * d) mod size_t_max)%N) s 1%N.

(** The mathematical element count. *)
Definition element_count (s : list N) : N :=
  fold_left N.mul s 1%N.

(** Modelled from the spec: xnor_cpu.h is not among the sources.  The packed
    word is a fixed-width integer whose bit width is 32 or 64, fixed at build
    time. *)
Inductive BINARY_WORD : Set := uint32_t | uint64_t.

Definition sizeof_BINARY_WORD (W : BINARY_WORD) : N :=
  match W with uint32_t => 4%N | uint64_t => 8%N end.

Definition BITS_PER_BINARY_WORD (W : BINARY_WORD) : N :=
  match W with uint32_t => 32%N | uint64_t => 64%N end.

(** The build: which packed word, the packing routine of xnor_cpu.h
    ([get_binary_row row size]: the bytes it writes behind [b_row]) and
    mshadow's [mshadow_sizeof] ([None]: unknown type flag, LOG(FATAL)). *)
Class xnor_cpu : Type := {
  word : BINARY_WORD;
  get_binary_row : list Byte.byte → N → list Byte.byte;
  mshadow_sizeof : Z → option N
}.

(** mxnet's container format (NDArray::Load, NDArray::Save), an opaque
    collaborator: [NDArray_Load bytes] is the (data, keys) pair read from a
    file, [None] when one of Load's CHECKs fails. *)
Class mxnet : Type := {
  NDArray_Load : string → option (list NDArray * list string);
  NDArray_Save : list NDArray → list string → string
}.

Section Packer.
Context {X : xnor_cpu} {MX : mxnet}.

(** main.cpp:28-39.  [temp] is built with the type flag of [array]. *)
Definition convert_to_binary (array : NDArray) : outcome NDArray :=
  match mshadow_sizeof (dtype array) with
  | Some sz => assert (N.eqb sz (sizeof_BINARY_WORD word))
  | None => Thrown
  end;;
  assert (2 <=? ndim (shape array))%nat;;
  match shape array !! 1%nat with
  | Some d => assert (N.eqb (d mod BITS_PER_BINARY_WORD word) 0)
  | None => Undefined
  end;;
  let size := Size (shape array) in
  let binarized_shape := [(size / BITS_PER_BINARY_WORD word)%N] in
  let temp := mkNDArray binarized_shape (dtype array)
                        (get_binary_row (dptr array) size) in
  mret temp.

(** [dmlc::Stream::Create(uri, "r")] followed by [NDArray::Load]: a file that
    cannot be opened fails a CHECK inside dmlc. *)
Definition load_params (input_file : string)
  : prog (list NDArray * list string) :=
  fi ← open_read input_file;
  match fi with
  | None => lift Thrown
  | Some bytes =>
      match NDArray_Load bytes with
      | None => lift Thrown
      | Some loaded => mret loaded
      end
  end.

(** [dmlc::Stream::Create(uri, "w")] followed by [NDArray::Save]. *)
Definition save_params (output_file : string)
    (data : list NDArray) (keys : list string) : prog unit :=
  fo ← can_open_write output_file;
  if fo : bool then write_file output_file (NDArray_Save data keys)
  else lift Thrown.

(** main.cpp:59 *)
Definition filter_strings : list string :=
  ["qconvolution"; "qfullyconnected"].

(** [std::find_if(first, last, pred)]: an iterator is the part of the
    sequence from its position on; [[]] is [end()]. *)
Fixpoint find_if {A} (pred : A → bool) (first : list A) : list A :=
  match first with
  | [] => []
  | x :: next => if pred x then first else find_if pred next
  end.

(** main.cpp:62-67 *)
Definition containsSubString (line_in_params filter_string : string) : bool :=
  match find line_in_params filter_string with
  | Some _ => true
  | None => false
  end.

Definition containsFilterString (line_in_params : string) : bool :=
  match find_if (containsSubString line_in_params) filter_strings with
  | [] => false
  | _ :: _ => true
  end.

(** The name test of the loop, in words. *)
Definition names_layer (key : string) : Prop :=
  substring_of "qconvolution" key ∨ substring_of "qfullyconnected" key.

(** main.cpp:75-85, the while loop: [iter] is the iterator into [keys],
    [iter - keys.begin()] is [length keys - length iter]. *)
Equations? convert_loop (keys iter : list string) (data : list NDArray)
  : prog (list NDArray) by wf (length iter) lt :=
  convert_loop keys [] data := mret data;
  convert_loop keys (key :: next) data :=
    (cout ("|- converting weights " +:+ key +:+ "...");;
     lift (CHECK (containsSubString key "weight"));;
     let i := (length keys - length (key :: next))%nat in
     match data !! i with
     | None => lift Undefined
     | Some array =>
         converted ← lift (convert_to_binary array);
         convert_loop keys (find_if containsFilterString next)
                      (<[i := converted]> data)
     end).
Proof.
  clear. simpl. apply Nat.lt_succ_r.
  induction next as [|x next IH]; simpl; [lia|].
  destruct (containsFilterString x); simpl; lia.
Qed.

(** The same loop as one pass over the keys from position [i] on: the keys
    that [find_if] steps over are the ones the filter rejects.  Used to
    reason about [convert_loop] (see [convert_loop_pass]). *)
Fixpoint pack_from (rest : list string) (i : nat) (data : list NDArray)
  : outcome (list NDArray) :=
  match rest with
  | [] => Returned data
  | key :: rest' =>
      if containsFilterString key then
        CHECK (containsSubString key "weight");;
        match data !! i with
        | None => Undefined
        | Some array =>
            converted ← convert_to_binary array;
            pack_from rest' (S i) (<[i := converted]> data)
        end
      else pack_from rest' (S i) data
  end.

(** main.cpp:48-94 *)
Definition convert_params_file (input_file output_file : string) : prog Z :=
  cout ("loading " +:+ input_file +:+ "...");;
  '(data, keys) ← load_params input_file;
  let iter := find_if containsFilterString keys in
  data ← convert_loop keys iter data;
  save_params output_file data keys;;
  cout ("wrote converted params to " +:+ output_file);;
  mret 0.

End Packer.

(* ===================================================================== *)
(** * The graph document *)
(* ===================================================================== *)

(** rapidjson::Value.  An object is the sequence of its members in document
    order (rapidjson keeps duplicates); a number keeps its flags and its 64
    payload bits. *)
#[warnings="-register-all"]
Inductive Value : Type :=
| kNullType
| kFalseType
| kTrueType
| kObjectType (members : list (string * Value))
| kArrayType (elements : list Value)
| kStringType (str : string)
| kNumberType (flags bits : N).

(** rapidjson's parser and writer, opaque collaborators: [Parse text] is the
    document after [d.Parse(text)] (kNullType on a parse error), [Accept d]
    the text the Writer produces. *)
Class rapidjson : Type := {
  Parse : string → Value;
  Accept : Value → string
}.

Definition IsString (v : Value) : bool :=
  match v with kStringType _ => true | _ => false end.
Definition IsArray (v : Value) : bool :=
  match v with kArrayType _ => true | _ => false end.
Definition IsObject (v : Value) : bool :=
  match v with kObjectType _ => true | _ => false end.

(** [FindMember]: the first member of that name (names are compared with
    their lengths, not as C strings). *)
Fixpoint FindMember (name : string) (members : list (string * Value))
  : option Value :=
  match members with
  | [] => None
  | (n, v) :: rest => if decide (n = name) then Some v else FindMember name rest
  end.

(** [HasMember] asserts (RAPIDJSON_ASSERT) that the value is an object. *)
Definition HasMember (v : Value) (name : string) : outcome bool :=
  match v with
  | kObjectType members =>
      mret (match FindMember name members with Some _ => true | None => false end)
  | _ => Aborted
  end.

(** [v[name]] *)
Definition member (v : Value) (name : string) : outcome Value :=
  match v with
  | kObjectType members =>
      match FindMember name members with
      | Some x => mret x
      | None => Aborted
      end
  | _ => Aborted
  end.

(** Writing through the reference [v[name]]. *)
Fixpoint assign_first (name : string) (x : Value)
    (members : list (string * Value)) : list (string * Value) :=
  match members with
  | [] => []
  | (n, v) :: rest =>
      if decide (n = name) then (n, x) :: rest
      else (n, v) :: assign_first name x rest
  end.

Definition assign_member (v : Value) (name : string) (x : Value) : Value :=
  match v with
  | kObjectType members => kObjectType (assign_first name x members)
  | _ => v
  end.

Definition GetString (v : Value) : outcome string :=
  match v with kStringType s => mret s | _ => Aborted end.

(** [AddMember] appends a member; it does not look for the name. *)
Definition AddMember (v : Value) (name : string) (x : Value) : outcome Value :=
  match v with
  | kObjectType members => mret (kObjectType (members ++ [(name, x)]))
  | _ => Aborted
  end.

(** main.cpp:125-127, the condition under the negation. *)
Definition is_quantized_op (node : Value) : outcome bool :=
  has_op ← HasMember node "op";
  if negb has_op then mret false else
  op ← member node "op";
  if negb (IsString op) then mret false else
  s ← GetString op;
  mret ((strcmp s "QConvolution" =? 0) || (strcmp s "QFullyConnected" =? 0)).

(** main.cpp:125-136, the body of the for loop on one node. *)
Definition annotate_node (node : Value) : prog Value :=
  quantized ← lift (is_quantized_op node);
  if negb quantized then mret node else
  has_attr ← lift (HasMember node "attr");
  lift (assert has_attr);;
  op_attributes ← lift (member node "attr");
  op_attributes ← lift (AddMember op_attributes "binarized_weights_only"
                                  (kStringType "True"));
  let node := assign_member node "attr" op_attributes in
  has_name ← lift (HasMember node "name");
  lift (assert has_name);;
  name ← lift (member node "name");
  name ← lift (GetString name);
  cout ("|- adjusting attributes for " +:+ c_str name);;
  mret node.

(** main.cpp:124, the for loop over the array. *)
Fixpoint annotate_nodes (itr : list Value) : prog (list Value) :=
  match itr with
  | [] => mret []
  | node :: rest =>
      node ← annotate_node node;
      rest ← annotate_nodes rest;
      mret (node :: rest)
  end.

(** main.cpp:120-137, on the parsed document. *)
Definition annotate (d : Value) : prog Value :=
  has_nodes ← lift (HasMember d "nodes");
  lift (assert has_nodes);;
  nodes ← lift (member d "nodes");
  lift (assert (IsArray nodes));;
  match nodes with
  | kArrayType elements =>
      elements ← annotate_nodes elements;
      mret (assign_member d "nodes" (kArrayType elements))
  | _ => lift Aborted
  end.

(** The member the annotator adds (main.cpp:133). *)
Definition packed_flag : string * Value :=
  ("binarized_weights_only", kStringType "True").

(** What [annotate_node] returns, without the printing (see
    [annotate_node_pure]). *)
Definition annotated (node : Value) : outcome Value :=
  quantized ← is_quantized_op node;
  if negb quantized then mret node else
  match node with
  | kObjectType members =>
      match FindMember "attr" members, FindMember "name" members with
      | Some (kObjectType attrs), Some (kStringType _) =>
          mret (kObjectType
                  (assign_first "attr" (kObjectType (attrs ++ [packed_flag]))
                                members))
      | _, _ => Aborted
      end
  | _ => Aborted
  end.

Fixpoint annotated_all (nodes : list Value) : outcome (list Value) :=
  match nodes with
  | [] => mret []
  | node :: rest =>
      node ← annotated node;
      rest ← annotated_all rest;
      mret (node :: rest)
  end.

Definition annotated_document (d : Value) : outcome Value :=
  match d with
  | kObjectType members =>
      match FindMember "nodes" members with
      | Some (kArrayType nodes) =>
          nodes ← annotated_all nodes;
          mret (kObjectType (assign_first "nodes" (kArrayType nodes) members))
      | _ => Aborted
      end
  | _ => Aborted
  end.

(** The operator-type field of a node: its first member called "op". *)
Definition op_field (node : Value) : option Value :=
  match node with
  | kObjectType members => FindMember "op" members
  | _ => None
  end.

Definition op_is_exactly (node : Value) : Prop :=
  ∃ s, op_field node = Some (kStringType s) ∧
       (s = "QConvolution" ∨ s = "QFullyConnected").

(** The operator type, if it is a string, has no NUL character in it. *)
Definition op_is_plain (node : Value) : Prop :=
  ∀ s, op_field node = Some (kStringType s) → NUL_free s = true.

(** [members'] is [members] with the value of its first member called
    [name] replaced: [x] became [x'], every other member is as it was and
    where it was. *)
Definition replaced_first (name : string) (x x' : Value)
    (members members' : list (string * Value)) : Prop :=
  ∃ pre post,
    members = pre ++ (name, x) :: post ∧ FindMember name pre = None ∧
    members' = pre ++ (name, x') :: post.

(** [node'] is [node] with [extra] appended to its attribute map. *)
Definition with_attrs_appended (extra : list (string * Value))
    (node node' : Value) : Prop :=
  ∃ members members' attrs,
    node = kObjectType members ∧ node' = kObjectType members' ∧
    replaced_first "attr" (kObjectType attrs) (kObjectType (attrs ++ extra))
                   members members'.

Definition with_flag : Value → Value → Prop :=
  with_attrs_appended [packed_flag].

(** What stops the annotator: no "nodes" member, a "nodes" member that is
    not an array, or a matching node without "attr". *)
Inductive malformed (d : Value) : Prop :=
| no_nodes : HasMember d "nodes" = Returned false → malformed d
| nodes_not_array v :
    member d "nodes" = Returned v → IsArray v = false → malformed d
| no_attr nodes node :
    member d "nodes" = Returned (kArrayType nodes) → node ∈ nodes →
    is_quantized_op node = Returned true →
    HasMember node "attr" = Returned false → malformed d.

(** dirname and basename of <libgen.h>.  dirname may write into its argument:
    it yields the directory and the argument as it leaves it. *)
Class libgen : Type := {
  dirname : string → string * string;
  basename : string → string
}.

Section Driver.
Context {X : xnor_cpu} {MX : mxnet} {RJ : rapidjson} {LG : libgen}.

(** main.cpp:103-157 *)
Definition convert_json_file (input_fname output_fname : string) : prog Z :=
  cout ("loading " +:+ input_fname +:+ "...");;
  stream ← open_read input_fname;
  match stream with
  | None =>
      cout ("cant find json file at " +:+ input_fname);;
      mret (-1)
  | Some json =>
      d ← annotate (Parse (c_str json));
      let output := c_str (Accept d) in
      stream ← can_open_write output_fname;
      if negb stream then
        cout ("cant find json file at " +:+ output_fname);;
        mret (-1)
      else
        write_file output_fname output;;
        cout ("wrote converted json to " +:+ output_fname);;
        mret 0
  end.

(** [int ret = f(...) != 0]: [ret] is the truth value of the comparison. *)
Definition ne0 (r : Z) : Z := if decide (r = 0) then 0 else 1.

(** main.cpp:163-191; [argv] holds the argc arguments. *)
Definition main (argv : list string) : prog Z :=
  match argv with
  | [] => lift Undefined
  | [_; argv1] =>
      let params_file := argv1 in
      let '(path, argv1) := dirname argv1 in
      let params_file_name := basename argv1 in
      match rfind params_file_name "-"%char with
      | None => lift Thrown
      | Some pos =>
          let base_name := erase params_file_name pos in
          let output_name := path +:+ "/" +:+ "binarized_" +:+ params_file_name in
          r ← convert_params_file params_file output_name;
          let ret := ne0 r in
          if decide (ret = 0) then
            let json_file_name := path +:+ "/" +:+ base_name +:+ "-symbol.json" in
            let json_out_fname :=
              path +:+ "/" +:+ "binarized_" +:+ base_name +:+ "-symbol.json" in
            r ← convert_json_file json_file_name json_out_fname;
            let ret := ne0 r in
            if decide (ret = 0) then mret 0 else mret ret
          else mret ret
      end
  | argv0 :: _ =>
      cout ("usage: " +:+ argv0 +:+ " <mxnet *.params file>");;
      cout "  will binarize the weights of the Convolutional Layers of your model,";;
      cout "  pack 32 values into one and save the result with the prefix 'binarized_'";;
      mret (-1)
  end.

(** The exit status the shell sees. *)
Definition exit_status (r : Z) : Z := r mod 256.

End Driver.

(* ===================================================================== *)
(** * A concrete build, used to run the model *)
(* ===================================================================== *)

Module Demo.

(** Modelled from the spec: the packing routine of xnor_cpu.h is not among
    the sources.  Each packed word holds one bit per original element, 1 if
    the value is >= 0 and 0 otherwise; element [i * BITS + j] is bit [j] of
    word [i].  The row is read as 32-bit floats (the cast to float* ), little
    endian. *)
Definition le_word (bs : list Byte.byte) : N :=
  fold_right (fun b acc => (Byte.to_N b + 256 * acc)%N) 0%N bs.

Definition float_at (row : list Byte.byte) (k : nat) : N :=
  le_word (take 4 (drop (4 * k) row)).

(** [x >= 0] on the bits of an IEEE single: false for a NaN and for a
    negative value, true for both zeros. *)
Definition float_ge0 (bits : N) : bool :=
  let magnitude := N.land bits 0x7FFFFFFF in
  (magnitude <=? 0x7F800000)%N && (negb (N.testbit bits 31) || (magnitude =? 0)%N).

Fixpoint le_bytes (n : nat) (x : N) : list Byte.byte :=
  match n with
  | O => []
  | S n' => default Byte.x00 (Byte.of_N (x mod 256)) :: le_bytes n' (x / 256)%N
  end.

Definition pack_word (bits : nat) (row : list Byte.byte) (i : nat) : N :=
  fold_right (fun j acc =>
                (acc + if float_ge0 (float_at row (i * bits + j))
                       then 2 ^ N.of_nat j else 0)%N)
             0%N (seq 0 bits).

Definition get_binary_row_spec (W : BINARY_WORD)
    (row : list Byte.byte) (size : N) : list Byte.byte :=
  let bits := N.to_nat (BITS_PER_BINARY_WORD W) in
  flat_map (fun i => le_bytes (N.to_nat (sizeof_BINARY_WORD W)) (pack_word bits row i))
           (seq 0 (N.to_nat size / bits)).

(** mshadow's type flags and their sizes (mshadow/base.h, not among the
    sources). *)
Definition kFloat32 : Z := 0.
Definition kFloat64 : Z := 1.
Definition kFloat16 : Z := 2.
Definition kUint8 : Z := 3.
Definition kInt32 : Z := 4.

Definition mshadow_sizeof_table (flag : Z) : option N :=
  if decide (flag = kFloat32) then Some 4%N
  else if decide (flag = kFloat64) then Some 8%N
  else if decide (flag = kFloat16) then Some 2%N
  else if decide (flag = kUint8) then Some 1%N
  else if decide (flag = kInt32) then Some 4%N
  else None.

(** The 32-bit build. *)
Definition build32 : xnor_cpu :=
  {| word := uint32_t;
     get_binary_row := get_binary_row_spec uint32_t;
     mshadow_sizeof := mshadow_sizeof_table |}.

(** A float32 tensor of the given shape, all elements 1.0f (3F800000). *)
Definition ones (shp : list N) : NDArray :=
  mkNDArray shp kFloat32
    (mjoin (replicate (N.to_nat (element_count shp))
                      [Byte.x00; Byte.x00; Byte.x80; Byte.x3f])).

(** A container format for the runs below: a file holds the name of one of
    three checkpoints; saving lists the keys with their tensors' bytes. *)
Definition good_checkpoint : list NDArray * list string :=
  ([ones [3; 3]%N; ones [2; 32]%N; ones [4]%N],
   ["conv0_weight"; "qconvolution0_weight"; "fc_bias"]).

Definition odd_checkpoint : list NDArray * list string :=
  ([ones [4]%N; ones [4; 33]%N], ["fc_bias"; "qfullyconnected0_weight"]).

Definition bias_checkpoint : list NDArray * list string :=
  ([ones [2; 32]%N; ones [4]%N], ["qconvolution0_weight"; "qfullyconnected0_bias"]).

Definition demo_Load (bytes : string) : option (list NDArray * list string) :=
  if decide (bytes = "good") then Some good_checkpoint
  else if decide (bytes = "odd") then Some odd_checkpoint
  else if decide (bytes = "bias") then Some bias_checkpoint
  else None.

Fixpoint demo_Save (data : list NDArray) (keys : list string) : string :=
  match data, keys with
  | array :: data', key :: keys' =>
      key +:+ "=" +:+ String.string_of_list_byte (dptr array) +:+ ";"
      +:+ demo_Save data' keys'
  | _, _ => ""
  end.

Definition demo_mxnet : mxnet :=
  {| NDArray_Load := demo_Load; NDArray_Save := demo_Save |}.

(** Graph documents. *)
Definition node (op name : string) (attr : list (string * Value)) : Value :=
  kObjectType [("op", kStringType op); ("name", kStringType name);
               ("attr", kObjectType attr)].

Definition graph (nodes : list Value) : Value :=
  kObjectType [("nodes", kArrayType nodes);
               ("arg_nodes", kArrayType [kNumberType 0 0])].

Definition small_graph : Value :=
  graph [node "null" "data" []; node "QConvolution" "c0" [];
         node "QFullyConnected" "fc0" [("num_hidden", kStringType "10")]].

(** The document of the specification's scenario: one QConvolution node
    with an empty attribute map. *)
Definition scenario_graph : Value :=
  kObjectType [("nodes", kArrayType [node "QConvolution" "c0" []])].

(** An operator type that reads "QConvolution" as a C string and is longer
    (the JSON text "QConvolution\u0000x"). *)
Definition nul_op : string := "QConvolution" +:+ String NUL "x".

Definition nul_graph : Value := graph [node nul_op "c0" []].

(** A QConvolution node without an attribute map. *)
Definition bare_graph : Value :=
  graph [kObjectType [("op", kStringType "QConvolution");
                      ("name", kStringType "c0")]].

(** A node whose "op" member is the number 7. *)
Definition numeric_graph : Value :=
  graph [kObjectType [("op", kNumberType 0 7); ("name", kStringType "n0")]].

(** A parser and writer on a table of texts. *)
Definition demo_Parse (text : string) : Value :=
  if decide (text = "small") then small_graph
  else if decide (text = "numeric-op") then numeric_graph
  else if decide (text = "bare") then bare_graph
  else kNullType.

Definition demo_Accept (d : Value) : string :=
  match d with
  | kObjectType _ => "{...}"
  | _ => "null"
  end.

Definition demo_rapidjson : rapidjson :=
  {| Parse := demo_Parse; Accept := demo_Accept |}.

(** libgen in the current directory: dirname is "." and leaves its argument
    alone, basename is the argument. *)
Definition demo_libgen : libgen :=
  {| dirname := fun path => (".", path); basename := fun path => path |}.

Definition world0 : world :=
  World (<["net-0001.params" := "good"]>
         (<["odd-0001.params" := "odd"]>
          (<["bias-0001.params" := "bias"]>
           (<["./net-symbol.json" := "small"]>
            (<["./num-symbol.json" := "numeric-op"]>
             (<["./bare-symbol.json" := "bare"]> ∅)))))) ∅ [].

(** A directory with a checkpoint and no graph file next to it. *)
Definition lonely_world : world :=
  World (<["net-0001.params" := "good"]> ∅) ∅ [].

End Demo.

(* ===================================================================== *)
(** * Progress reports and further runs *)
(* ===================================================================== *)

(** The line main.cpp:77 prints for a key. *)
Definition converting_line (key : string) : string :=
  "|- converting weights " +:+ key +:+ "...".

(** The line main.cpp:136 prints for a node, if the node is one the
    annotator handles. *)
Definition adjusting_lines (node : Value) : list string :=
  match is_quantized_op node, node with
  | Returned true, kObjectType members =>
      match FindMember "name" members with
      | Some (kStringType name) => ["|- adjusting attributes for " +:+ c_str name]
      | _ => []
      end
  | _, _ => []
  end.

(** The three lines of main.cpp:165-167. *)
Definition usage (argv0 : string) : list string :=
  ["usage: " +:+ argv0 +:+ " <mxnet *.params file>";
   "  will binarize the weights of the Convolutional Layers of your model,";
   "  pack 32 values into one and save the result with the prefix 'binarized_'"].

Module Demo2.

(** A checkpoint without quantized layers. *)
Definition plain_checkpoint : list NDArray * list string :=
  ([Demo.ones [3; 3]%N; Demo.ones [4]%N], ["conv0_weight"; "fc_bias"]).

Definition demo2_Load (bytes : string) : option (list NDArray * list string) :=
  if decide (bytes = "plain") then Some plain_checkpoint
  else Demo.demo_Load bytes.

Definition demo2_mxnet : mxnet :=
  {| NDArray_Load := demo2_Load; NDArray_Save := Demo.demo_Save |}.

(** A graph without quantized layers, and one whose QConvolution node has
    no name. *)
Definition plain_graph : Value :=
  Demo.graph [Demo.node "null" "data" []; Demo.node "Convolution" "c0" []].

Definition nameless_graph : Value :=
  Demo.graph [kObjectType [("op", kStringType "QConvolution");
                           ("attr", kObjectType [])]].

Definition demo2_Parse (text : string) : Value :=
  if decide (text = "nameless") then nameless_graph
  else Demo.demo_Parse text.

Definition demo2_rapidjson : rapidjson :=
  {| Parse := demo2_Parse; Accept := Demo.demo_Accept |}.

(** A directory with a read-only corner. *)
Definition world2 : world :=
  World (<["net-0001.params" := "good"]>
         (<["plain-0001.params" := "plain"]>
          (<["./net-symbol.json" := "small"]>
           (<["./junk-symbol.json" := "junk"]>
            (<["./nameless-symbol.json" := "nameless"]> ∅)))))
        {["/ro/out.params"; "/ro/out.json"]} [].

End Demo2.


(* ===================================================================== *)
(** * Strings *)
(* ===================================================================== *)

Lemma starts_with_prefix pat s :
  starts_with pat s = true ↔ ∃ b, s = pat +:+ b.
Proof.
  revert s. induction pat as [|c pat IH]; intros s; simpl.
  - split; [intros _; by exists s | done].
  - destruct s as [|d s]; simpl.
    + split; [done | intros [b Hb]; discriminate].
    + rewrite andb_true_iff, IH. split.
      * intros [Hc [b ->]]. apply Ascii.eqb_eq in Hc as ->. by exists b.
      * intros [b Hb]. injection Hb as -> ->. split; [apply Ascii.eqb_refl | by exists b].
Qed.

Lemma containsSubString_substring line pat :
  containsSubString line pat = true ↔ substring_of pat line.
Proof.
  unfold containsSubString, substring_of. split.
  - induction line as [|c line IH]; simpl.
    + destruct (starts_with pat "") eqn:E; [|done].
      intros _. apply starts_with_prefix in E as [b ->]. by exists "", b.
    + destruct (starts_with pat (String c line)) eqn:E.
      * intros _. apply starts_with_prefix in E as [b ->]. by exists "", b.
      * destruct (find line pat) eqn:F; simpl; [|done].
        intros _. destruct (IH eq_refl) as (a & b & ->).
        by exists (String c a), b.
  - intros (a & b & ->). induction a as [|c a IH]; simpl.
    + assert (starts_with pat (pat +:+ b) = true) as E
        by (apply starts_with_prefix; by exists b).
      destruct pat; simpl in *; [by destruct b | by rewrite E].
    + destruct (starts_with pat (String c (a +:+ pat +:+ b))); [done|].
      by destruct (find (a +:+ pat +:+ b) pat).
Qed.

Lemma containsFilterString_substring line :
  containsFilterString line = true ↔
  substring_of "qconvolution" line ∨ substring_of "qfullyconnected" line.
Proof.
  rewrite <- !containsSubString_substring.
  unfold containsFilterString, filter_strings. simpl.
  destruct (containsSubString line "qconvolution"),
           (containsSubString line "qfullyconnected"); intuition discriminate.
Qed.

Lemma uchar_inj c d : uchar c = uchar d → c = d.
Proof.
  unfold uchar. intros H. apply N2Z.inj in H.
  rewrite <- (ascii_N_embedding c), <- (ascii_N_embedding d). by rewrite H.
Qed.

Lemma uchar_NUL c : uchar c = 0 → c = NUL.
Proof. intros H. by apply uchar_inj. Qed.

(** [strcmp] compares what a C reader sees of the two buffers. *)
Lemma strcmp_0 a b : strcmp a b = 0 ↔ c_str a = c_str b.
Proof.
  revert b. induction a as [|c a IH]; intros [|d b]; simpl.
  - done.
  - destruct (Ascii.eqb d NUL) eqn:E.
    + apply Ascii.eqb_eq in E as ->. done.
    + split; [|done]. intros H. assert (uchar d = 0) as H0 by lia.
      apply uchar_NUL in H0 as ->. by rewrite Ascii.eqb_refl in E.
  - destruct (Ascii.eqb c NUL) eqn:E.
    + apply Ascii.eqb_eq in E as ->. done.
    + split; [|done]. intros H. apply uchar_NUL in H as ->.
      by rewrite Ascii.eqb_refl in E.
  - destruct (Ascii.eqb c d) eqn:Ecd.
    + apply Ascii.eqb_eq in Ecd as ->.
      destruct (Ascii.eqb d NUL); [done|].
      rewrite IH. split; [by intros -> | by intros [= ?]].
    + assert (c ≠ d) as Hne by (intros ->; by rewrite Ascii.eqb_refl in Ecd).
      split.
      * intros H. destruct Hne. apply uchar_inj. lia.
      * destruct (Ascii.eqb c NUL) eqn:Ec, (Ascii.eqb d NUL) eqn:Ed;
          try done.
        -- apply Ascii.eqb_eq in Ec, Ed. congruence.
        -- intros [= ? ?]. done.
Qed.

Lemma c_str_NUL_free s : NUL_free s = true → c_str s = s.
Proof.
  induction s as [|c s IH]; simpl; [done|].
  destruct (Ascii.eqb c NUL); simpl; [done|]. intros H. by rewrite IH.
Qed.

Lemma strcmp_0_exact s lit :
  NUL_free s = true → NUL_free lit = true → strcmp s lit = 0 ↔ s = lit.
Proof.
  intros Hs Hl. rewrite strcmp_0, (c_str_NUL_free s), (c_str_NUL_free lit); done.
Qed.

(* ===================================================================== *)
(** * Tensors: [Size] and [convert_to_binary] *)
(* ===================================================================== *)

Lemma fold_mul_scale (s : list N) (a : N) :
  fold_left N.mul s a = (a * fold_left N.mul s 1)%N.
Proof.
  revert a. induction s as [|d s IH]; intros a; simpl; [lia|].
  rewrite (IH (a * d)%N), (IH (1 * d)%N). lia.
Qed.

(** [Size] is the element count reduced modulo 2^64. *)
Lemma Size_element_count (s : list N) :
  Size s = (element_count s mod size_t_max)%N.
Proof.
  unfold Size, element_count.
  assert (∀ a, fold_left (fun size d => ((size * d) mod size_t_max)%N) s
                          (a mod size_t_max)%N
               = (fold_left N.mul s a mod size_t_max)%N) as H.
  { induction s as [|d s IH]; intros a; simpl; [done|].
    rewrite N.Div0.mul_mod_idemp_l. apply IH. }
  rewrite <- (H 1%N). done.
Qed.

Lemma Size_no_wrap (s : list N) :
  (element_count s < size_t_max)%N → Size s = element_count s.
Proof. intros H. rewrite Size_element_count. by apply N.mod_small. Qed.

Lemma element_count_divide (s : list N) (i : nat) (d : N) :
  s !! i = Some d → (d | element_count s)%N.
Proof.
  unfold element_count. revert i. induction s as [|x s IH]; intros [|i] H;
    simpl in *; try done.
  - injection H as ->. rewrite fold_mul_scale.
    exists (fold_left N.mul s 1%N). lia.
  - rewrite fold_mul_scale. destruct (IH _ H) as [q Hq].
    exists (x * q)%N. unfold element_count in Hq. rewrite Hq. lia.
Qed.

Lemma BITS_divides_size_t (W : BINARY_WORD) :
  (BITS_PER_BINARY_WORD W | size_t_max)%N.
Proof.
  destruct W; [exists (2 ^ 59)%N | exists (2 ^ 58)%N]; by vm_compute.
Qed.

Lemma BITS_positive (W : BINARY_WORD) : (0 < BITS_PER_BINARY_WORD W)%N.
Proof. by destruct W. Qed.

(** A second dimension that is a multiple of the word width makes the whole
    count a multiple, also after the reduction modulo 2^64. *)
Lemma Size_multiple (W : BINARY_WORD) (s : list N) (d : N) :
  s !! 1%nat = Some d → (d mod BITS_PER_BINARY_WORD W = 0)%N →
  (Size s mod BITS_PER_BINARY_WORD W = 0)%N.
Proof.
  intros Hd Hmod. pose proof (BITS_positive W) as Hpos.
  apply N.Lcm0.mod_divide in Hmod.
  pose proof (element_count_divide _ _ _ Hd) as Hc.
  assert (BITS_PER_BINARY_WORD W | element_count s)%N as [q Hq]
    by (etrans; done).
  destruct (BITS_divides_size_t W) as [m Hm].
  rewrite Size_element_count. apply N.Lcm0.mod_divide.
  rewrite Hm, Hq.
  destruct (N.eq_dec m 0%N) as [->|Hm0].
  { rewrite N.mul_0_l in Hm. by vm_compute in Hm. }
  rewrite N.Div0.mul_mod_distr_r. apply N.divide_factor_r.
Qed.

Section PackerFacts.
Context {X : xnor_cpu}.

(** When [convert_to_binary] returns: the three asserts held, and the result
    is [temp]. *)
Lemma convert_to_binary_Returned (array packed : NDArray) :
  convert_to_binary array = Returned packed ↔
  mshadow_sizeof (dtype array) = Some (sizeof_BINARY_WORD word) ∧
  (2 ≤ ndim (shape array))%nat ∧
  (∃ d, shape array !! 1%nat = Some d ∧ (d mod BITS_PER_BINARY_WORD word = 0)%N) ∧
  packed = mkNDArray [(Size (shape array) / BITS_PER_BINARY_WORD word)%N]
                     (dtype array)
                     (get_binary_row (dptr array) (Size (shape array))).
Proof.
  unfold convert_to_binary, mbind, outcome_bind, mret, outcome_ret, assert.
  split.
  - destruct (mshadow_sizeof (dtype array)) as [sz|]; [|done].
    destruct (N.eqb_spec sz (sizeof_BINARY_WORD word)) as [->|]; [|done].
    destruct (Nat.leb_spec 2 (ndim (shape array))); [|done].
    destruct (shape array !! 1%nat) as [d|]; [|done].
    destruct (N.eqb_spec (d mod BITS_PER_BINARY_WORD word) 0); [|done].
    intros [= <-]. eauto 10.
  - intros (-> & Hn & (d & -> & Hd) & ->).
    rewrite N.eqb_refl. destruct (Nat.leb_spec 2 (ndim (shape array))); [|lia].
    by rewrite Hd.
Qed.

Lemma convert_to_binary_defined (array : NDArray) :
  convert_to_binary array ≠ Undefined.
Proof.
  unfold convert_to_binary, mbind, outcome_bind, mret, outcome_ret, assert.
  destruct (mshadow_sizeof (dtype array)) as [sz|]; [|done].
  destruct (N.eqb sz (sizeof_BINARY_WORD word)); [|done].
  destruct (Nat.leb_spec 2 (ndim (shape array))) as [H|]; [|done].
  destruct (shape array !! 1%nat) as [d|] eqn:E.
  - by destruct (N.eqb (d mod BITS_PER_BINARY_WORD word) 0).
  - apply lookup_ge_None in E. unfold ndim in H. lia.
Qed.

(** A second dimension that is not a multiple of the word width stops the
    process. *)
Lemma convert_to_binary_odd (array : NDArray) (d : N) :
  shape array !! 1%nat = Some d → (d mod BITS_PER_BINARY_WORD word ≠ 0)%N →
  fatal (convert_to_binary array).
Proof.
  intros Hd Hmod.
  unfold fatal, convert_to_binary, mbind, outcome_bind, mret, outcome_ret, assert.
  destruct (mshadow_sizeof (dtype array)) as [sz|]; [|by right].
  destruct (N.eqb sz (sizeof_BINARY_WORD word)); [|by left].
  destruct (Nat.leb_spec 2 (ndim (shape array))); [|by left].
  rewrite Hd. destruct (N.eqb_spec (d mod BITS_PER_BINARY_WORD word) 0); [done|by left].
Qed.

(** The packed tensor never equals its source: it has one dimension, the
    source at least two. *)
Lemma convert_to_binary_changes (array : NDArray) :
  convert_to_binary array ≠ Returned array.
Proof.
  intros H. apply convert_to_binary_Returned in H as (_ & Hn & _ & Heq).
  rewrite Heq in Hn. simpl in Hn. lia.
Qed.

(** C2: a tensor with at least two dimensions whose second dimension is a
    multiple of BITS_PER_BINARY_WORD is packed (provided its element size is
    that of BINARY_WORD, the first assert) into a tensor with exactly one
    dimension, of length Size() / BITS_PER_BINARY_WORD; the division is exact,
    and Size() is the element count whenever that fits a size_t. *)
Theorem C2_packed_shape (array : NDArray) (d : N) :
  (2 ≤ ndim (shape array))%nat →
  shape array !! 1%nat = Some d →
  (d mod BITS_PER_BINARY_WORD word = 0)%N →
  (mshadow_sizeof (dtype array) = Some (sizeof_BINARY_WORD word) →
   ∃ packed, convert_to_binary array = Returned packed) ∧
  (∀ packed, convert_to_binary array = Returned packed →
     ndim (shape packed) = 1%nat ∧
     shape packed = [(Size (shape array) / BITS_PER_BINARY_WORD word)%N] ∧
     (Size (shape array) =
      BITS_PER_BINARY_WORD word * (Size (shape array) / BITS_PER_BINARY_WORD word))%N ∧
     ((element_count (shape array) < size_t_max)%N →
      shape packed = [(element_count (shape array) / BITS_PER_BINARY_WORD word)%N])).
Proof.
  intros Hn Hd Hmod. split.
  - intros Hsz. eexists. apply convert_to_binary_Returned. eauto 10.
  - intros packed H. apply convert_to_binary_Returned in H as (_ & _ & _ & ->).
    simpl. split_and!; [done|done| |].
    + pose proof (Size_multiple word _ _ Hd Hmod) as Hm.
      pose proof (N.Div0.div_mod (Size (shape array)) (BITS_PER_BINARY_WORD word)).
      lia.
    + intros Hfit. by rewrite Size_no_wrap.
Qed.

(** C5 (as the code has it): the packed tensor keeps the type flag of its
    source; the code only requires that this type is as wide as BINARY_WORD.
    The packed words are the bytes get_binary_row writes. *)
Theorem C5_dtype_kept (array packed : NDArray) :
  convert_to_binary array = Returned packed →
  dtype packed = dtype array ∧
  mshadow_sizeof (dtype packed) = Some (sizeof_BINARY_WORD word) ∧
  dptr packed = get_binary_row (dptr array) (Size (shape array)).
Proof.
  intros H. apply convert_to_binary_Returned in H as (Hsz & _ & _ & ->). done.
Qed.

End PackerFacts.

(* ===================================================================== *)
(** * The weight packer *)
(* ===================================================================== *)

Ltac run_prog :=
  unfold mbind, prog_bind, mret, prog_ret, lift, cout, open_read,
    can_open_write, write_file; simpl.

Section PackerLoop.
Context {X : xnor_cpu} {MX : mxnet}.

(** The while loop over the iterator is the single pass [pack_from]; it only
    prints. *)
Lemma convert_loop_pass (keys l : list string) :
  (length l ≤ length keys)%nat →
  ∀ data w, ∃ w',
    convert_loop keys (find_if containsFilterString l) data w
    = (pack_from l (length keys - length l) data, w') ∧
    files w' = files w ∧ unwritable w' = unwritable w.
Proof.
  induction l as [|key l IH]; intros Hlen data w.
  - simpl. simp convert_loop. by exists w.
  - simpl in Hlen.
    assert (length keys - length l = S (length keys - length (key :: l)))%nat
      as Hidx by (simpl; lia).
    simpl find_if. simpl pack_from.
    destruct (containsFilterString key) eqn:Hsel.
    + simp convert_loop. run_prog.
      destruct (containsSubString key "weight"); simpl; [|eauto].
      destruct (data !! (length keys - S (length l))%nat) as [array|]; simpl;
        [|eauto].
      destruct (convert_to_binary array) as [converted| | |]; simpl; eauto.
      edestruct (IH ltac:(lia) (<[(length keys - S (length l))%nat := converted]> data))
        as (w' & -> & Hf & Hu).
      rewrite Hidx. simpl. eauto.
    + destruct (IH ltac:(lia) data w) as (w' & -> & Hf & Hu).
      rewrite Hidx. eauto.
Qed.

(** What a pass that returns has done, entry by entry. *)
Lemma pack_from_Returned (rest : list string) :
  ∀ i data data', pack_from rest i data = Returned data' →
    length data' = length data ∧
    (∀ j, (j < i)%nat → data' !! j = data !! j) ∧
    (∀ j, (i + length rest ≤ j)%nat → data' !! j = data !! j) ∧
    (∀ j key, rest !! j = Some key →
       if containsFilterString key
       then containsSubString key "weight" = true ∧
            ∃ array converted,
              data !! (i + j)%nat = Some array ∧
              convert_to_binary array = Returned converted ∧
              data' !! (i + j)%nat = Some converted
       else data' !! (i + j)%nat = data !! (i + j)%nat).
Proof.
  induction rest as [|key rest IH]; intros i data data'; simpl.
  - intros [= <-]. split_and!; done.
  - destruct (containsFilterString key) eqn:Hsel.
    + destruct (containsSubString key "weight") eqn:Hw; simpl; [|done].
      destruct (data !! i) as [array|] eqn:Hi; [|done].
      destruct (convert_to_binary array) as [converted| | |] eqn:Hc; simpl;
        try done.
      intros H. apply IH in H as (Hlen & Hlow & Hhigh & Hin).
      rewrite length_insert in Hlen.
      pose proof (lookup_lt_Some _ _ _ Hi) as Hlt.
      split_and!; [done| | |].
      * intros j Hj. rewrite Hlow by lia. apply list_lookup_insert_ne. lia.
      * intros j Hj. rewrite Hhigh by lia. apply list_lookup_insert_ne. lia.
      * intros [|j] k Hk; simpl in Hk.
        -- injection Hk as <-. rewrite Hsel, Nat.add_0_r. split; [done|].
           exists array, converted. split_and!; [done|done|].
           rewrite Hlow by lia. by apply list_lookup_insert_eq.
        -- specialize (Hin j k Hk). replace (i + S j)%nat with (S i + j)%nat by lia.
           destruct (containsFilterString k).
           ++ destruct Hin as (Hkw & a & c & Ha & Hac & Hd). split; [done|].
              exists a, c. rewrite list_lookup_insert_ne in Ha by lia. done.
           ++ rewrite Hin. apply list_lookup_insert_ne. lia.
    + intros H. apply IH in H as (Hlen & Hlow & Hhigh & Hin).
      split_and!; [done| | |].
      * intros j Hj. apply Hlow. lia.
      * intros j Hj. apply Hhigh. lia.
      * intros [|j] k Hk; simpl in Hk.
        -- injection Hk as <-. rewrite Hsel, Nat.add_0_r. apply Hlow. lia.
        -- specialize (Hin j k Hk). by replace (i + S j)%nat with (S i + j)%nat by lia.
Qed.

(** An entry that is selected and either is not a weight or cannot be packed
    stops the pass, whatever comes before it. *)
Lemma pack_from_fatal (rest : list string) :
  ∀ i j data key array,
    rest !! j = Some key → data !! (i + j)%nat = Some array →
    containsFilterString key = true →
    (containsSubString key "weight" = false ∨ fatal (convert_to_binary array)) →
    fatal (pack_from rest i data).
Proof.
  induction rest as [|key0 rest IH]; intros i j data key array Hk Ha Hsel Hbad;
    [done|].
  pose proof (lookup_lt_Some _ _ _ Ha) as Hlt.
  destruct j as [|j]; simpl in Hk |- *.
  - injection Hk as ->. rewrite Hsel. rewrite Nat.add_0_r in Ha.
    destruct Hbad as [-> | Hc]; simpl; [by right|].
    destruct (containsSubString key "weight"); simpl; [|by right].
    rewrite Ha. destruct Hc as [-> | ->]; simpl; [by left | by right].
  - replace (i + S j)%nat with (S i + j)%nat in Ha by lia.
    destruct (containsFilterString key0); [|by eapply IH].
    destruct (containsSubString key0 "weight"); simpl; [|by right].
    destruct (lookup_lt_is_Some_2 data i ltac:(lia)) as [a0 Ha0]. rewrite Ha0.
    destruct (convert_to_binary a0) as [c0| | |] eqn:Hc0; simpl.
    + eapply IH; [done| |done|done]. rewrite list_lookup_insert_ne by lia. done.
    + by left.
    + by right.
    + by destruct (convert_to_binary_defined a0).
Qed.

(** [convert_params_file], once the container is loaded: the outcome of the
    pass decides everything. *)
Lemma convert_params_file_loaded input_file output_file w bytes data keys :
  files w !! input_file = Some bytes →
  NDArray_Load bytes = Some (data, keys) →
  let w0 := World (files w) (unwritable w)
                  (stdout w ++ ["loading " +:+ input_file +:+ "..."]) in
  ∃ w1, files w1 = files w ∧ unwritable w1 = unwritable w ∧
    match pack_from keys 0 data with
    | Returned data' =>
        convert_params_file input_file output_file w
        = (if bool_decide (output_file ∉ unwritable w)
           then (Returned 0,
                 World (<[output_file := NDArray_Save data' keys]> (files w1))
                       (unwritable w1)
                       (stdout w1 ++ ["wrote converted params to " +:+ output_file]))
           else (Thrown, w1))
    | Aborted => convert_params_file input_file output_file w = (Aborted, w1)
    | Thrown => convert_params_file input_file output_file w = (Thrown, w1)
    | Undefined => convert_params_file input_file output_file w = (Undefined, w1)
    end.
Proof.
  intros Hfile Hload w0.
  destruct (convert_loop_pass keys keys ltac:(lia) data w0) as (w1 & Hloop & Hf & Hu).
  rewrite Nat.sub_diag in Hloop.
  exists w1. split_and!; [done|done|].
  unfold convert_params_file, load_params, save_params. run_prog.
  rewrite Hfile, Hload. fold w0. rewrite Hloop.
  destruct (pack_from keys 0 data); try done.
  rewrite Hu. simpl. destruct (bool_decide (output_file ∉ unwritable w)); simpl; by rewrite ?Hu.
Qed.

(** Whatever [convert_params_file] returns is 0. *)
Lemma convert_params_file_returns_0 input_file output_file w r w' :
  convert_params_file input_file output_file w = (Returned r, w') → r = 0.
Proof.
  unfold convert_params_file, load_params, save_params. run_prog.
  destruct (files w !! input_file) as [bytes|]; [|done].
  destruct (NDArray_Load bytes) as [[data keys]|]; [|done].
  destruct (convert_loop _ _ _ _) as [[data'| | |] w1]; try done.
  destruct (bool_decide _); [|done]. by intros [= <- _].
Qed.

End PackerLoop.

Section PackerClaims.
Context {X : xnor_cpu} {MX : mxnet}.

(** A run that returns has read and loaded its input, finished the pass and
    written the result to the output path. *)
Lemma convert_params_file_Returned input_file output_file w r w' :
  convert_params_file input_file output_file w = (Returned r, w') →
  ∃ bytes data keys data',
    files w !! input_file = Some bytes ∧
    NDArray_Load bytes = Some (data, keys) ∧
    pack_from keys 0 data = Returned data' ∧
    (output_file ∉ unwritable w) ∧
    files w' = <[output_file := NDArray_Save data' keys]> (files w).
Proof.
  intros Hrun.
  destruct (files w !! input_file) as [bytes|] eqn:Hfile; cycle 1.
  { revert Hrun. unfold convert_params_file, load_params. run_prog.
    by rewrite Hfile. }
  destruct (NDArray_Load bytes) as [[data keys]|] eqn:Hload; cycle 1.
  { revert Hrun. unfold convert_params_file, load_params. run_prog.
    by rewrite Hfile, Hload. }
  destruct (convert_params_file_loaded input_file output_file w bytes data keys
              Hfile Hload) as (w1 & Hf & Hu & Hcase).
  destruct (pack_from keys 0 data) as [data'| | |] eqn:Hpass;
    rewrite Hcase in Hrun; try done.
  destruct (bool_decide_reflect (output_file ∉ unwritable w)) as [Hw|]; [|done].
  injection Hrun as _ <-. exists bytes, data, keys, data'. simpl.
  by rewrite Hf.
Qed.

(** C1: on a run of the weight packer that returns, the tensor of an entry is
    replaced by its packed form exactly when the entry's name contains
    "qconvolution" or "qfullyconnected" and contains "weight"; an entry whose
    name contains neither filter string is written as it was read, under the
    same name and at the same position. *)
Theorem C1_selection input_file output_file w w' :
  convert_params_file input_file output_file w = (Returned 0, w') →
  ∃ bytes data keys data',
    files w !! input_file = Some bytes ∧
    NDArray_Load bytes = Some (data, keys) ∧
    files w' = <[output_file := NDArray_Save data' keys]> (files w) ∧
    length data' = length data ∧
    ∀ i key array, keys !! i = Some key → data !! i = Some array →
      ∃ array', data' !! i = Some array' ∧
        (convert_to_binary array = Returned array' ↔
         names_layer key ∧ substring_of "weight" key) ∧
        (¬ names_layer key → array' = array).
Proof.
  intros Hrun.
  apply convert_params_file_Returned in Hrun
    as (bytes & data & keys & data' & Hfile & Hload & Hpass & _ & Hout).
  exists bytes, data, keys, data'. split_and!; try done.
  { by apply pack_from_Returned in Hpass as (? & _). }
  intros i key array Hkey Harr.
  apply pack_from_Returned in Hpass as (_ & _ & _ & Hin).
  specialize (Hin i key Hkey). simpl in Hin.
  pose proof (containsFilterString_substring key) as Hfs.
  pose proof (containsSubString_substring key "weight") as Hws.
  fold (names_layer key) in Hfs.
  destruct (containsFilterString key).
  - destruct Hin as (Hw & a & c & Ha & Hc & Hd).
    rewrite Harr in Ha. injection Ha as <-.
    exists c. split_and!; [done| |].
    + split; [intros _; split; [by apply Hfs | by apply Hws] | done].
    + intros Hn. destruct Hn. by apply Hfs.
  - exists array. split_and!; [by rewrite Hin| |done].
    split.
    + intros H. by destruct (convert_to_binary_changes array).
    + intros [Hn _]. apply Hfs in Hn. done.
Qed.

(** C7: a selected weight tensor whose second dimension is not a multiple of
    BITS_PER_BINARY_WORD ends the run fatally, and no file has been written
    by then. *)
Theorem C7_odd_dimension input_file output_file w bytes data keys
    i key array d :
  files w !! input_file = Some bytes →
  NDArray_Load bytes = Some (data, keys) →
  keys !! i = Some key → data !! i = Some array →
  names_layer key → substring_of "weight" key →
  shape array !! 1%nat = Some d → (d mod BITS_PER_BINARY_WORD word ≠ 0)%N →
  ∃ r w', convert_params_file input_file output_file w = (r, w') ∧
          fatal r ∧ files w' = files w.
Proof.
  intros Hfile Hload Hkey Harr Hname _ Hd Hmod.
  destruct (convert_params_file_loaded input_file output_file w bytes data keys
              Hfile Hload) as (w1 & Hf & Hu & Hcase).
  assert (fatal (pack_from keys 0 data)) as Hfatal.
  { eapply (pack_from_fatal keys 0 i); [done|done| |].
    - by apply containsFilterString_substring.
    - right. by eapply convert_to_binary_odd. }
  destruct Hfatal as [Hp | Hp]; rewrite Hp in Hcase.
  - exists Aborted, w1. split_and!; [done|by left|done].
  - exists Thrown, w1. split_and!; [done|by right|done].
Qed.

(** C8: an entry whose name contains "qconvolution" or "qfullyconnected" but
    not "weight" ends the run fatally, and the output checkpoint has not been
    written by then. *)
Theorem C8_not_a_weight input_file output_file w bytes data keys i key array :
  files w !! input_file = Some bytes →
  NDArray_Load bytes = Some (data, keys) →
  keys !! i = Some key → data !! i = Some array →
  names_layer key → ¬ substring_of "weight" key →
  ∃ r w', convert_params_file input_file output_file w = (r, w') ∧
          fatal r ∧ files w' = files w.
Proof.
  intros Hfile Hload Hkey Harr Hname Hnw.
  destruct (convert_params_file_loaded input_file output_file w bytes data keys
              Hfile Hload) as (w1 & Hf & Hu & Hcase).
  assert (fatal (pack_from keys 0 data)) as Hfatal.
  { eapply (pack_from_fatal keys 0 i); [done|done| |].
    - by apply containsFilterString_substring.
    - left. destruct (containsSubString key "weight") eqn:E; [|done].
      by apply containsSubString_substring in E. }
  destruct Hfatal as [Hp | Hp]; rewrite Hp in Hcase.
  - exists Aborted, w1. split_and!; [done|by left|done].
  - exists Thrown, w1. split_and!; [done|by right|done].
Qed.

(** C10: whenever [convert_params_file] returns, it returns 0, and then the
    input was read and loaded, the pass went through and the output was
    written: no failure comes back as a return value. *)
Theorem C10_returns_only_0 input_file output_file w r w' :
  convert_params_file input_file output_file w = (Returned r, w') →
  r = 0 ∧
  ∃ bytes data keys data',
    files w !! input_file = Some bytes ∧
    NDArray_Load bytes = Some (data, keys) ∧
    pack_from keys 0 data = Returned data' ∧
    output_file ∉ unwritable w.
Proof.
  intros Hrun. split; [by eapply convert_params_file_returns_0|].
  apply convert_params_file_Returned in Hrun
    as (bytes & data & keys & data' & ? & ? & ? & ? & _).
  by exists bytes, data, keys, data'.
Qed.

End PackerClaims.

(* ===================================================================== *)
(** * The graph annotator *)
(* ===================================================================== *)

Ltac run_outcome :=
  unfold mbind, outcome_bind, mret, outcome_ret, assert; simpl.

Lemma FindMember_first name pre x post :
  FindMember name pre = None →
  FindMember name (pre ++ (name, x) :: post) = Some x.
Proof.
  induction pre as [|[n v] pre IH]; simpl.
  - intros _. by rewrite decide_True.
  - destruct (decide (n = name)); [done|]. apply IH.
Qed.

Lemma FindMember_other name name' pre x post :
  name' ≠ name →
  FindMember name' (pre ++ (name, x) :: post) = FindMember name' (pre ++ post).
Proof.
  intros Hne. induction pre as [|[n v] pre IH]; simpl.
  - by rewrite decide_False.
  - destruct (decide (n = name')); [done|]. apply IH.
Qed.

(** Writing through [v[name]] touches the first member of that name only. *)
Lemma assign_first_replaced name members x x' :
  FindMember name members = Some x →
  replaced_first name x x' members (assign_first name x' members).
Proof.
  induction members as [|[n v] members IH]; simpl; [done|].
  destruct (decide (n = name)) as [->|Hne].
  - intros [= ->]. by exists [], members.
  - intros H. destruct (IH H) as (pre & post & -> & Hpre & ->).
    exists ((n, v) :: pre), post. simpl. by rewrite decide_False.
Qed.

Lemma replaced_first_lookup name x x' members members' :
  replaced_first name x x' members members' →
  FindMember name members = Some x ∧ FindMember name members' = Some x' ∧
  ∀ name', name' ≠ name → FindMember name' members' = FindMember name' members.
Proof.
  intros (pre & post & -> & Hpre & ->).
  split_and!; try by apply FindMember_first.
  intros name' Hne. by rewrite !(FindMember_other name name').
Qed.

(** The test of main.cpp:125-127 on the operator-type field. *)
Lemma is_quantized_op_true node :
  is_quantized_op node = Returned true ↔
  ∃ s, op_field node = Some (kStringType s) ∧
       (strcmp s "QConvolution" = 0 ∨ strcmp s "QFullyConnected" = 0).
Proof.
  unfold is_quantized_op, op_field, HasMember, member. run_outcome.
  destruct node as [| | |members| | |]; try (split; [done | by intros (? & ? & _)]).
  destruct (FindMember "op" members) as [op|]; simpl;
    [|split; [done | by intros (? & ? & _)]].
  destruct op as [| | | | |s|]; simpl;
    try (split; [done | by intros (? & ? & _)]).
  split.
  - intros [= H]. exists s. split; [done|].
    apply orb_true_iff in H as [H|H]; apply Z.eqb_eq in H; auto.
  - intros (s' & [= <-] & H). f_equal. apply orb_true_iff.
    destruct H as [H|H]; apply Z.eqb_eq in H; auto.
Qed.

Lemma is_quantized_op_false node :
  is_quantized_op node = Returned false ↔
  IsObject node = true ∧
  (op_field node = None ∨
   (∃ v, op_field node = Some v ∧ IsString v = false) ∨
   (∃ s, op_field node = Some (kStringType s) ∧
         strcmp s "QConvolution" ≠ 0 ∧ strcmp s "QFullyConnected" ≠ 0)).
Proof.
  unfold is_quantized_op, op_field, HasMember, member. run_outcome.
  destruct node as [| | |members| | |]; try (split; [done | by intros [? _]]).
  destruct (FindMember "op" members) as [op|]; simpl; [|by intuition].
  destruct (IsString op) eqn:Hs; simpl.
  - destruct op as [| | | | |s|]; try done. simpl. split.
    + intros [= H]. split; [done|]. right; right. exists s. split; [done|].
      apply orb_false_iff in H as [H1 H2].
      by apply Z.eqb_neq in H1, H2.
    + intros (_ & [H | [(v & [= <-] & H) | (s' & [= <-] & H1 & H2)]]); try done.
      f_equal. apply orb_false_iff. by split; apply Z.eqb_neq.
  - split; [|done]. intros _. split; [done|]. right; left. by exists op.
Qed.

(** The test never throws and never reads out of range: it returns or
    aborts. *)
Lemma is_quantized_op_cases node :
  is_quantized_op node = Aborted ∨ ∃ b, is_quantized_op node = Returned b.
Proof.
  unfold is_quantized_op, HasMember, member. run_outcome.
  destruct node as [| | |members| | |]; auto.
  destruct (FindMember "op" members) as [op|]; simpl; [|eauto].
  destruct op; simpl; eauto.
Qed.

(** On a string without NUL the test is equality with one of the two
    literals. *)
Lemma is_quantized_op_exact node :
  op_is_plain node →
  is_quantized_op node = Returned true ↔ op_is_exactly node.
Proof.
  intros Hplain. rewrite is_quantized_op_true. unfold op_is_exactly.
  split; intros (s & Hop & H); exists s; (split; [done|]).
  - specialize (Hplain s Hop).
    destruct H as [H|H]; apply strcmp_0_exact in H; auto.
  - specialize (Hplain s Hop).
    destruct H as [H|H]; [left|right]; by apply strcmp_0_exact.
Qed.

Lemma op_is_exactly_quantized node :
  op_is_exactly node → is_quantized_op node = Returned true.
Proof.
  intros (s & Hop & H). apply is_quantized_op_true. exists s. split; [done|].
  destruct H as [-> | ->]; [left|right]; by vm_compute.
Qed.

Lemma FindMember_assign_other name name' x members :
  name' ≠ name →
  FindMember name' (assign_first name x members) = FindMember name' members.
Proof.
  intros Hne. induction members as [|[n v] members IH]; simpl; [done|].
  destruct (decide (n = name)) as [->|]; simpl.
  - by rewrite !decide_False.
  - destruct (decide (n = name')); [done|]. apply IH.
Qed.

(** [annotate_node] computes [annotated] and only prints. *)
Lemma annotate_node_pure node w :
  ∃ w', annotate_node node w = (annotated node, w') ∧
        files w' = files w ∧ unwritable w' = unwritable w.
Proof.
  unfold annotate_node, annotated. run_prog. run_outcome.
  destruct (is_quantized_op node) as [[|]| | |] eqn:Hq; simpl; eauto.
  destruct node as [| | |members| | |]; simpl; eauto.
  destruct (FindMember "attr" members) as [attrs|] eqn:Hattr; simpl; eauto.
  destruct attrs as [| | |attrs| | |]; simpl; eauto.
  rewrite FindMember_assign_other by done.
  destruct (FindMember "name" members) as [name|]; simpl; eauto.
  destruct name; simpl; eauto.
Qed.

Lemma annotate_nodes_pure nodes :
  ∀ w, ∃ w', annotate_nodes nodes w = (annotated_all nodes, w') ∧
             files w' = files w ∧ unwritable w' = unwritable w.
Proof.
  induction nodes as [|node nodes IH]; intros w; simpl.
  - by exists w.
  - run_prog. run_outcome.
    destruct (annotate_node_pure node w) as (w1 & -> & Hf1 & Hu1).
    destruct (annotated node) as [node'| | |]; eauto.
    destruct (IH w1) as (w2 & -> & Hf2 & Hu2).
    destruct (annotated_all nodes) as [nodes'| | |];
      exists w2; (split_and!; [done|congruence|congruence]).
Qed.

Lemma annotate_pure d w :
  ∃ w', annotate d w = (annotated_document d, w') ∧
        files w' = files w ∧ unwritable w' = unwritable w.
Proof.
  unfold annotate, annotated_document, HasMember, member. run_prog. run_outcome.
  destruct d as [| | |members| | |]; simpl; eauto.
  destruct (FindMember "nodes" members) as [nodes|]; simpl; eauto.
  destruct nodes as [| | | |nodes| |]; simpl; eauto.
  destruct (annotate_nodes_pure nodes w) as (w1 & -> & Hf & Hu).
  destruct (annotated_all nodes); eauto.
Qed.

(** The annotator returns or aborts, nothing else. *)
Lemma annotated_cases node :
  annotated node = Aborted ∨ ∃ node', annotated node = Returned node'.
Proof.
  unfold annotated. run_outcome.
  destruct (is_quantized_op_cases node) as [-> | [[|] ->]]; simpl; eauto.
  destruct node as [| | |members| | |]; eauto.
  destruct (FindMember "attr" members) as [[| | |attrs| | |]|]; eauto.
  destruct (FindMember "name" members) as [[]|]; eauto.
Qed.

(** One node: either it is not a quantized layer and stays as it is, or it
    is one, has an attribute map and a name, and gets the flag appended. *)
Lemma annotated_Returned node node' :
  annotated node = Returned node' ↔
  (is_quantized_op node = Returned false ∧ node' = node) ∨
  (is_quantized_op node = Returned true ∧ with_flag node node' ∧
   ∃ members name, node = kObjectType members ∧
                   FindMember "name" members = Some (kStringType name)).
Proof.
  unfold annotated, with_flag, with_attrs_appended. run_outcome.
  destruct (is_quantized_op node) as [[|]| | |] eqn:Hq; simpl;
    try (split; [done | by intros [[? _] | [? _]]]).
  - destruct node as [| | |members| | |];
      try (split; [done | intros [[? _] | (_ & (? & ? & ? & ? & _) & _)]; done]).
    destruct (FindMember "attr" members) as [attr|] eqn:Hattr; cycle 1.
    { split; [done|]. intros [[? _] | (_ & (m & m' & a & [= <-] & _ & Hr) & _)];
        [done|].
      apply replaced_first_lookup in Hr as (Hr & _). congruence. }
    destruct attr as [| | |attrs| | |];
      try (split; [done|];
           intros [[? _] | (_ & (m & m' & a & [= <-] & _ & Hr) & _)]; [done|];
           apply replaced_first_lookup in Hr as (Hr & _); congruence).
    destruct (FindMember "name" members) as [name|] eqn:Hname; cycle 1.
    { split; [done|]. intros [[? _] | (_ & _ & (m & n & [= <-] & Hn))]; [done|].
      congruence. }
    destruct name as [| | | | |name|];
      try (split; [done|];
           intros [[? _] | (_ & _ & (m & n & [= <-] & Hn))]; [done|congruence]).
    split.
    + intros [= <-]. right. split_and!; [done| |by eauto].
      exists members, (assign_first "attr" (kObjectType (attrs ++ [packed_flag])) members), attrs.
      split_and!; [done|done|]. by apply assign_first_replaced.
    + intros [[? _] | (_ & (m & m' & a & [= <-] & -> & Hr) & _)]; [done|].
      f_equal. f_equal.
      pose proof (assign_first_replaced "attr" members (kObjectType attrs)
                    (kObjectType (attrs ++ [packed_flag])) Hattr) as Hr'.
      destruct Hr as (pre & post & Hm & Hpre & ->).
      destruct Hr' as (pre' & post' & Hm' & Hpre' & ->).
      assert (FindMember "attr" members = Some (kObjectType a)) as Ha
        by (rewrite Hm; by apply FindMember_first).
      rewrite Hattr in Ha. injection Ha as <-.
      clear Hattr Hname Hq. revert pre' Hm' Hpre'. rewrite Hm. clear Hm.
      induction pre as [|[n v] pre IH]; intros [|[n' v'] pre'] Hm' Hpre'; simpl in *.
      * by injection Hm' as <-.
      * injection Hm' as <- <- _. by rewrite decide_True in Hpre'.
      * injection Hm' as -> -> _. by rewrite decide_True in Hpre.
      * injection Hm' as <- <- Hm'. f_equal.
        destruct (decide (n = "attr")); [done|]. by apply IH.
  - split; [intros [= <-]; by left | intros [[_ ->] | [? _]]; done].
Qed.

Lemma annotated_all_Returned nodes nodes' :
  annotated_all nodes = Returned nodes' ↔
  Forall2 (fun node node' => annotated node = Returned node') nodes nodes'.
Proof.
  revert nodes'. induction nodes as [|node nodes IH]; intros nodes'; simpl.
  - split; [intros [= <-]; constructor | by intros ->%Forall2_nil_inv_l].
  - run_outcome. split.
    + destruct (annotated node) as [node1| | |] eqn:H1; try done.
      destruct (annotated_all nodes) as [nodes1| | |] eqn:H2; try done.
      intros [= <-]. constructor; [done|]. by apply IH.
    + intros (node1 & nodes1 & H1 & H2 & ->)%Forall2_cons_inv_l.
      rewrite H1. apply IH in H2. by rewrite H2.
Qed.

Lemma annotated_all_Aborted nodes node :
  node ∈ nodes → annotated node = Aborted → annotated_all nodes = Aborted.
Proof.
  intros Hin Hnode. induction nodes as [|n nodes IH]; [by apply elem_of_nil in Hin|].
  simpl. run_outcome. apply elem_of_cons in Hin as [<- | Hin].
  - by rewrite Hnode.
  - destruct (annotated_cases n) as [-> | [n' ->]]; [done|].
    by rewrite (IH Hin).
Qed.

Lemma annotated_document_Returned d d' :
  annotated_document d = Returned d' →
  ∃ members members' nodes nodes',
    d = kObjectType members ∧ d' = kObjectType members' ∧
    replaced_first "nodes" (kArrayType nodes) (kArrayType nodes') members members' ∧
    annotated_all nodes = Returned nodes'.
Proof.
  unfold annotated_document. run_outcome.
  destruct d as [| | |members| | |]; try done.
  destruct (FindMember "nodes" members) as [[| | | |nodes| |]|] eqn:Hn; try done.
  destruct (annotated_all nodes) as [nodes'| | |] eqn:Hall; try done.
  intros [= <-]. exists members, (assign_first "nodes" (kArrayType nodes') members), nodes, nodes'.
  split_and!; try done. by apply assign_first_replaced.
Qed.

(** The first member of a given name splits a member list in one way only. *)
Lemma first_split_unique name pre x post pre' x' post' :
  pre ++ (name, x) :: post = pre' ++ (name, x') :: post' →
  FindMember name pre = None → FindMember name pre' = None →
  pre = pre' ∧ x = x' ∧ post = post'.
Proof.
  revert pre'. induction pre as [|[n v] pre IH]; intros [|[n' v'] pre']; simpl.
  - by intros [= <- <-].
  - intros [= <- <- _] _. by rewrite decide_True.
  - intros [= -> -> _]. by rewrite decide_True.
  - intros [= <- <- H]. destruct (decide (n = name)); [done|].
    intros H1 H2. destruct (IH _ H H1 H2) as (-> & -> & ->). done.
Qed.

Lemma replaced_first_trans name x x1 x2 m m1 m2 :
  replaced_first name x x1 m m1 → replaced_first name x1 x2 m1 m2 →
  replaced_first name x x2 m m2.
Proof.
  intros (pre & post & -> & Hpre & ->) (pre' & post' & H & Hpre' & ->).
  destruct (first_split_unique _ _ _ _ _ _ _ H Hpre Hpre') as (<- & _ & <-).
  by exists pre, post.
Qed.

(** Appending to the attribute map changes the node. *)
Lemma with_attrs_appended_changes extra node node' :
  extra ≠ [] → with_attrs_appended extra node node' → node' ≠ node.
Proof.
  intros Hne (m & m' & attrs & -> & -> & pre & post & -> & Hpre & ->) [= H].
  apply app_inv_head in H. injection H as H.
  apply (f_equal length) in H. rewrite length_app in H.
  destruct extra; [done|]. simpl in H. lia.
Qed.

(** Running the annotator on a node it has already handled: the node is
    matched again and gets the same member once more. *)
Lemma annotated_twice node node1 :
  annotated node = Returned node1 →
  (is_quantized_op node = Returned false ∧ node1 = node ∧
   annotated node1 = Returned node) ∨
  (is_quantized_op node = Returned true ∧
   ∃ node2, annotated node1 = Returned node2 ∧
            with_attrs_appended [packed_flag; packed_flag] node node2).
Proof.
  intros H. pose proof H as H0.
  apply annotated_Returned in H as [[Hq ->] | (Hq & Hflag & Hname)]; [by left|].
  right. split; [done|].
  destruct Hflag as (m & m1 & attrs & -> & -> & pre & post & -> & Hpre & ->).
  destruct Hname as (m & name & [= <-] & Hname).
  set (m2 := pre ++ ("attr", kObjectType ((attrs ++ [packed_flag]) ++ [packed_flag])) :: post).
  exists (kObjectType m2). split.
  - apply annotated_Returned. right. split_and!.
    + apply is_quantized_op_true in Hq as (s & Hop & Hs).
      apply is_quantized_op_true. exists s. split; [|done].
      simpl in *. rewrite (FindMember_other "attr" "op") in * by done. done.
    + exists (pre ++ ("attr", kObjectType (attrs ++ [packed_flag])) :: post), m2,
        (attrs ++ [packed_flag]).
      split_and!; [done|done|]. by exists pre, post.
    + eexists _, name. split; [done|].
      rewrite (FindMember_other "attr" "name") in * by done. done.
  - exists (pre ++ ("attr", kObjectType attrs) :: post), m2, attrs.
    split_and!; [done|done|]. exists pre, post. split_and!; [done|done|].
    unfold m2. by rewrite <- app_assoc.
Qed.

Lemma annotated_all_twice nodes nodes1 :
  annotated_all nodes = Returned nodes1 →
  ∃ nodes2, annotated_all nodes1 = Returned nodes2 ∧
    Forall2 (fun node node2 =>
               (is_quantized_op node = Returned true →
                with_attrs_appended [packed_flag; packed_flag] node node2) ∧
               (is_quantized_op node = Returned false → node2 = node))
            nodes nodes2.
Proof.
  rewrite annotated_all_Returned. induction 1 as [|node node1 nodes nodes1 H _ IH].
  - exists []. split; [done|constructor].
  - destruct IH as (nodes2 & Hall & Hrel).
    apply annotated_twice in H as [(Hq & -> & Hn) | (Hq & node2 & Hn & Happ)].
    + exists (node :: nodes2). simpl. run_outcome. rewrite Hn, Hall.
      split; [done|]. constructor; [|done]. split; [congruence|done].
    + exists (node2 :: nodes2). simpl. run_outcome. rewrite Hn, Hall.
      split; [done|]. constructor; [|done]. split; [done|congruence].
Qed.

(** A malformed document stops the annotator on an assert. *)
Lemma malformed_Aborted d : malformed d → annotated_document d = Aborted.
Proof.
  unfold annotated_document.
  intros [H | v H Harr | nodes node H Hin Hq Hattr];
    unfold HasMember, member, mret, outcome_ret in H;
    destruct d as [| | |members| | |]; try done;
    destruct (FindMember "nodes" members) as [nodes0|]; try done.
  - injection H as ->. by destruct v.
  - injection H as ->. run_outcome.
    rewrite (annotated_all_Aborted nodes node); [done|done|].
    unfold annotated. rewrite Hq. run_outcome.
    destruct node as [| | |m| | |]; try done.
    unfold HasMember, mret, outcome_ret in Hattr.
    by destruct (FindMember "attr" m).
Qed.

(** C3 (as the code has it): on a run of the annotator that returns, the
    document is an object whose first "nodes" member is an array; the result
    is the same object with only that array's elements touched, one for one
    and in order.  Every node, whatever its operator type, is either left as
    it is (when the operator test of main.cpp:125-127 rejects it) or gets the
    member "binarized_weights_only": "True" appended to its attribute map and
    is otherwise unchanged (when the test accepts it).  A node whose operator
    type is exactly "QConvolution" or "QFullyConnected" gets the member; for
    an operator type without NUL characters this happens only then, and
    every other such node is unchanged. *)
Theorem C3_annotation d w d' w' :
  annotate d w = (Returned d', w') →
  ∃ members members' nodes nodes',
    d = kObjectType members ∧ d' = kObjectType members' ∧
    replaced_first "nodes" (kArrayType nodes) (kArrayType nodes') members members' ∧
    length nodes' = length nodes ∧
    ∀ i node, nodes !! i = Some node →
      ∃ node', nodes' !! i = Some node' ∧
        ((is_quantized_op node = Returned false ∧ node' = node) ∨
         (is_quantized_op node = Returned true ∧ with_flag node node')) ∧
        (op_is_exactly node → with_flag node node') ∧
        (op_is_plain node → (with_flag node node' ↔ op_is_exactly node)) ∧
        (op_is_plain node → ¬ op_is_exactly node → node' = node).
Proof.
  intros Hrun. destruct (annotate_pure d w) as (w1 & Hpure & _).
  rewrite Hpure in Hrun. injection Hrun as Hdoc _.
  apply annotated_document_Returned in Hdoc
    as (members & members' & nodes & nodes' & -> & -> & Hrep & Hall).
  exists members, members', nodes, nodes'.
  apply annotated_all_Returned in Hall.
  split_and!; try done. { symmetry. by eapply Forall2_length. }
  intros i node Hi.
  destruct (Forall2_lookup_l _ _ _ _ _ Hall Hi) as (node' & Hi' & Hnode).
  exists node'. split; [done|].
  apply annotated_Returned in Hnode as [[Hq ->] | (Hq & Hflag & _)].
  - split_and!.
    + by left.
    + intros Hex%op_is_exactly_quantized. congruence.
    + intros Hplain. split.
      * intros Hflag. exfalso.
        eapply with_attrs_appended_changes; [|exact Hflag|reflexivity]. done.
      * intros Hex%op_is_exactly_quantized. congruence.
    + done.
  - split_and!; [by right|done| |].
    + intros Hplain. split; [|done]. intros _. by apply is_quantized_op_exact.
    + intros Hplain Hno. destruct Hno. by apply is_quantized_op_exact.
Qed.

(** C4 (as the code has it): the annotator run on its own output returns
    again, and each node it matches ends up with the member
    "binarized_weights_only": "True" twice at the end of its attribute map:
    the key is duplicated, nothing is overwritten.  Looking the key up gives
    "True" when the input map did not have the key.  All other nodes and
    members are as in the input. *)
Theorem C4_second_run d w d1 w1 :
  annotate d w = (Returned d1, w1) →
  ∃ d2 w2, annotate d1 w1 = (Returned d2, w2) ∧
  ∃ members members2 nodes nodes2,
    d = kObjectType members ∧ d2 = kObjectType members2 ∧
    replaced_first "nodes" (kArrayType nodes) (kArrayType nodes2) members members2 ∧
    length nodes2 = length nodes ∧
    ∀ i node, nodes !! i = Some node →
      ∃ node2, nodes2 !! i = Some node2 ∧
        (is_quantized_op node = Returned false → node2 = node) ∧
        (is_quantized_op node = Returned true →
         ∃ m m2 attrs,
           node = kObjectType m ∧ node2 = kObjectType m2 ∧
           replaced_first "attr" (kObjectType attrs)
             (kObjectType (attrs ++ [packed_flag; packed_flag])) m m2 ∧
           (FindMember "binarized_weights_only" attrs = None →
            FindMember "binarized_weights_only"
                       (attrs ++ [packed_flag; packed_flag])
            = Some (kStringType "True"))).
Proof.
  intros Hrun. destruct (annotate_pure d w) as (w' & Hpure & _).
  rewrite Hpure in Hrun. injection Hrun as Hdoc _.
  apply annotated_document_Returned in Hdoc
    as (members & members1 & nodes & nodes1 & -> & -> & Hrep & Hall).
  destruct (annotated_all_twice _ _ Hall) as (nodes2 & Hall2 & Hrel).
  destruct (annotate_pure (kObjectType members1) w1) as (w2 & Hpure2 & _).
  pose proof (replaced_first_lookup _ _ _ _ _ Hrep) as (_ & Hfind1 & _).
  exists (kObjectType (assign_first "nodes" (kArrayType nodes2) members1)), w2.
  split.
  { rewrite Hpure2. unfold annotated_document. rewrite Hfind1.
    run_outcome. by rewrite Hall2. }
  exists members, (assign_first "nodes" (kArrayType nodes2) members1), nodes, nodes2.
  split_and!; [done|done| | |].
  - eapply replaced_first_trans; [done|]. by apply assign_first_replaced.
  - symmetry. by eapply Forall2_length.
  - intros i node Hi.
    destruct (Forall2_lookup_l _ _ _ _ _ Hrel Hi) as (node2 & Hi2 & Htrue & Hfalse).
    exists node2. split_and!; [done|done|].
    intros Hq. destruct (Htrue Hq) as (m & m2 & attrs & -> & -> & Hr).
    exists m, m2, attrs. split_and!; [done|done|done|].
    intros Hnone. by apply FindMember_first.
Qed.

Section DriverClaims.
Context {X : xnor_cpu} {MX : mxnet} {RJ : rapidjson} {LG : libgen}.

(** [convert_json_file] on a file it can read: the outcome of the annotator
    on the parsed text decides, and nothing is written unless it returns. *)
Lemma convert_json_file_read input_fname output_fname w json :
  files w !! input_fname = Some json →
  ∃ w1, files w1 = files w ∧ unwritable w1 = unwritable w ∧
    match annotated_document (Parse (c_str json)) with
    | Returned d =>
        convert_json_file input_fname output_fname w
        = if bool_decide (output_fname ∉ unwritable w)
          then (Returned 0,
                World (<[output_fname := c_str (Accept d)]> (files w1))
                      (unwritable w1)
                      (stdout w1 ++ ["wrote converted json to " +:+ output_fname]))
          else (Returned (-1),
                World (files w1) (unwritable w1)
                      (stdout w1 ++ ["cant find json file at " +:+ output_fname]))
    | Aborted => convert_json_file input_fname output_fname w = (Aborted, w1)
    | Thrown => convert_json_file input_fname output_fname w = (Thrown, w1)
    | Undefined => convert_json_file input_fname output_fname w = (Undefined, w1)
    end.
Proof.
  intros Hfile. unfold convert_json_file. run_prog. rewrite Hfile.
  match goal with |- context [annotate ?d ?w0] =>
    destruct (annotate_pure d w0) as (w1 & -> & Hf & Hu) end.
  exists w1. split_and!; [done|done|].
  destruct (annotated_document _); try done.
  destruct w1 as [f1 u1 s1]. simpl in *. subst u1.
  by destruct (bool_decide _).
Qed.

(** The annotator on a graph file that cannot be opened. *)
Lemma convert_json_file_missing input_fname output_fname w :
  files w !! input_fname = None →
  convert_json_file input_fname output_fname w
  = (Returned (-1),
     World (files w) (unwritable w)
           ((stdout w ++ ["loading " +:+ input_fname +:+ "..."])
            ++ ["cant find json file at " +:+ input_fname])).
Proof.
  intros Hfile. unfold convert_json_file. run_prog. by rewrite Hfile.
Qed.

(** C6 (as the code has it): when the "nodes" member is absent or is not an
    array, or a matching node has no "attr" member, the annotator aborts the
    process: nothing is returned and no file is written.  A node whose "op"
    member is present but is not a string is skipped, unchanged, and the run
    goes on. *)
Theorem C6_malformed_aborts input_fname output_fname w json :
  files w !! input_fname = Some json →
  (malformed (Parse (c_str json)) →
   ∃ w', convert_json_file input_fname output_fname w = (Aborted, w') ∧
         files w' = files w) ∧
  (∀ node v w0, op_field node = Some v → IsString v = false →
     annotate_node node w0 = (Returned node, w0)).
Proof.
  intros Hfile. split.
  - intros Hbad.
    destruct (convert_json_file_read input_fname output_fname w json Hfile)
      as (w1 & Hf & _ & Hcase).
    rewrite (malformed_Aborted _ Hbad) in Hcase. by exists w1.
  - intros node v w0 Hop Hv.
    assert (is_quantized_op node = Returned false) as Hq.
    { apply is_quantized_op_false. split; [by destruct node|].
      right; left. by exists v. }
    unfold annotate_node. run_prog. by rewrite Hq.
Qed.

(** C9: when the graph file cannot be opened, [convert_json_file] reports it
    on the standard output and returns -1 without touching a file; in [main],
    after the packer has returned 0, this makes the process exit with status
    1; and when the packer did not return, the annotator is not run at all. *)
Theorem C9_missing_graph argv0 argv1 w pos r w1 :
  let path := (dirname argv1).1 in
  let params_file_name := basename (dirname argv1).2 in
  let base_name := erase params_file_name pos in
  let json_file_name := path +:+ "/" +:+ base_name +:+ "-symbol.json" in
  let json_out_fname :=
    path +:+ "/" +:+ "binarized_" +:+ base_name +:+ "-symbol.json" in
  rfind params_file_name "-"%char = Some pos →
  convert_params_file argv1 (path +:+ "/" +:+ "binarized_" +:+ params_file_name) w
  = (r, w1) →
  (files w1 !! json_file_name = None →
   ∃ w2, convert_json_file json_file_name json_out_fname w1 = (Returned (-1), w2) ∧
         files w2 = files w1 ∧
         last (stdout w2) = Some ("cant find json file at " +:+ json_file_name) ∧
         (r = Returned 0 →
          main [argv0; argv1] w = (Returned 1, w2) ∧ exit_status 1 ≠ 0)) ∧
  (r ≠ Returned 0 →
   (r = Aborted ∨ r = Thrown ∨ r = Undefined) ∧ main [argv0; argv1] w = (r, w1)).
Proof.
  intros path params_file_name base_name json_file_name json_out_fname Hrfind Hpack.
  assert (main [argv0; argv1] w
          = (r0 ← convert_params_file argv1
                     (path +:+ "/" +:+ "binarized_" +:+ params_file_name);
             if decide (ne0 r0 = 0)
             then (r1 ← convert_json_file json_file_name json_out_fname;
                   if decide (ne0 r1 = 0) then mret 0 else mret (ne0 r1))
             else mret (ne0 r0)) w) as Hmain.
  { unfold main.
    subst path params_file_name base_name json_file_name json_out_fname.
    destruct (dirname argv1) as [p a] eqn:Hd. simpl in *. by rewrite Hrfind. }
  split.
  - intros Hnone. eexists. split; [by apply convert_json_file_missing|].
    split_and!; [done|simpl; by rewrite last_snoc|].
    intros ->. split; [|done].
    rewrite Hmain. run_prog. rewrite Hpack. simpl.
    rewrite (convert_json_file_missing _ json_out_fname w1 Hnone). done.
  - intros Hne.
    assert (r = Aborted ∨ r = Thrown ∨ r = Undefined) as Hr.
    { destruct r as [z| | |]; auto.
      destruct Hne. f_equal. by eapply convert_params_file_returns_0. }
    split; [done|]. rewrite Hmain. run_prog. rewrite Hpack.
    by destruct Hr as [-> | [-> | ->]].
Qed.

End DriverClaims.

(* ===================================================================== *)
(** * Runs of the model on the concrete build *)
(* ===================================================================== *)

Section Runs.
#[local] Existing Instance Demo.build32.
#[local] Existing Instance Demo.demo_mxnet.
#[local] Existing Instance Demo.demo_rapidjson.
#[local] Existing Instance Demo.demo_libgen.

(** The good checkpoint is packed and saved. *)
Lemma C1_selection_witness :
  ∃ bytes data keys data',
    files Demo.world0 !! "net-0001.params" = Some bytes ∧
    NDArray_Load bytes = Some (data, keys) ∧
    files (convert_params_file "net-0001.params" "out.params" Demo.world0).2
    = <["out.params" := NDArray_Save data' keys]> (files Demo.world0) ∧
    length data' = length data ∧
    ∀ i key array, keys !! i = Some key → data !! i = Some array →
      ∃ array', data' !! i = Some array' ∧
        (convert_to_binary array = Returned array' ↔
         names_layer key ∧ substring_of "weight" key) ∧
        (¬ names_layer key → array' = array).
Proof.
  apply (C1_selection "net-0001.params" "out.params" Demo.world0).
  vm_compute. reflexivity.
Defined.

(** A 2 x 32 tensor is packed into 2 words. *)
Lemma C2_packed_shape_witness :
  ∃ packed, convert_to_binary (Demo.ones [2; 32]%N) = Returned packed ∧
            shape packed = [2%N].
Proof.
  destruct (C2_packed_shape (Demo.ones [2; 32]%N) 32%N) as [Hret Hshape];
    [simpl; lia | reflexivity | reflexivity |].
  destruct (Hret eq_refl) as [packed Hpacked].
  exists packed. split; [exact Hpacked|].
  destruct (Hshape packed Hpacked) as (_ & Hs & _). exact Hs.
Defined.

(** C3, as stated, fails: a node whose operator type is the 14-character
    string QConvolution, NUL, x (not one of the two literals) gets the
    attribute, because strcmp stops at the NUL; and a node whose operator
    type is exactly "QConvolution" but which has no attribute map gets
    nothing: the annotator aborts. *)
Lemma C3_counterexample :
  Demo.nul_op ≠ "QConvolution" ∧ Demo.nul_op ≠ "QFullyConnected" ∧
  (annotate Demo.nul_graph Demo.world0).1
  = Returned (Demo.graph [Demo.node Demo.nul_op "c0" [packed_flag]]) ∧
  op_is_exactly (kObjectType [("op", kStringType "QConvolution");
                              ("name", kStringType "c0")]) ∧
  (annotate Demo.bare_graph Demo.world0).1 = Aborted.
Proof.
  split_and!; [done | done | by vm_compute | | by vm_compute].
  exists "QConvolution". split; [done | by left].
Qed.

Lemma C3_annotation_witness :
  ∃ members members' nodes nodes',
    Demo.small_graph = kObjectType members ∧
    (annotate Demo.small_graph Demo.world0).1 = Returned (kObjectType members') ∧
    replaced_first "nodes" (kArrayType nodes) (kArrayType nodes') members members' ∧
    length nodes' = length nodes ∧
    ∀ i node, nodes !! i = Some node →
      ∃ node', nodes' !! i = Some node' ∧
        ((is_quantized_op node = Returned false ∧ node' = node) ∨
         (is_quantized_op node = Returned true ∧ with_flag node node')).
Proof.
  destruct (C3_annotation Demo.small_graph Demo.world0
              (match (annotate Demo.small_graph Demo.world0).1 with
               | Returned d => d | _ => kNullType end)
              (annotate Demo.small_graph Demo.world0).2)
    as (members & members' & nodes & nodes' & Hd & Hd' & Hrep & Hlen & Hnodes);
    [vm_compute; reflexivity|].
  exists members, members', nodes, nodes'.
  split_and!; [exact Hd | | exact Hrep | exact Hlen |].
  - rewrite <- Hd'. vm_compute. reflexivity.
  - intros i node Hi. destruct (Hnodes i node Hi) as (node' & Hi' & Hframe & _).
    exists node'. split; [exact Hi' | exact Hframe].
Defined.

(** C4, as stated, fails: after two runs on the scenario document the
    attribute map of c0 holds the key twice. *)
Lemma C4_counterexample :
  ∃ d1 w1,
    annotate Demo.scenario_graph Demo.world0 = (Returned d1, w1) ∧
    (annotate d1 w1).1
    = Returned (kObjectType
        [("nodes", kArrayType
           [Demo.node "QConvolution" "c0"
              [("binarized_weights_only", kStringType "True");
               ("binarized_weights_only", kStringType "True")]])]) ∧
    ¬ NoDup ["binarized_weights_only"; "binarized_weights_only"].
Proof.
  eexists _, _. split_and!; [by vm_compute | by vm_compute |].
  intros H. apply NoDup_cons in H as [H _]. apply H. by left.
Qed.

Lemma C4_second_run_witness :
  ∃ d2 w2,
    annotate (kObjectType
                [("nodes", kArrayType [Demo.node "QConvolution" "c0" [packed_flag]])])
             (annotate Demo.scenario_graph Demo.world0).2
    = (Returned d2, w2).
Proof.
  destruct (C4_second_run Demo.scenario_graph Demo.world0
              (kObjectType
                 [("nodes", kArrayType [Demo.node "QConvolution" "c0" [packed_flag]])])
              (annotate Demo.scenario_graph Demo.world0).2)
    as (d2 & w2 & Hrun & _); [vm_compute; reflexivity|].
  exists d2, w2. exact Hrun.
Defined.

(** C5, as stated, fails: the packed form of a float32 tensor is written
    with the float32 type flag. *)
Lemma C5_counterexample :
  ∃ packed,
    convert_to_binary (Demo.ones [2; 32]%N) = Returned packed ∧
    dtype (Demo.ones [2; 32]%N) = Demo.kFloat32 ∧
    dtype packed = Demo.kFloat32.
Proof. eexists. split_and!; by vm_compute. Qed.

Lemma C5_dtype_kept_witness :
  ∃ packed,
    convert_to_binary (Demo.ones [2; 32]%N) = Returned packed ∧
    dtype packed = dtype (Demo.ones [2; 32]%N) ∧
    mshadow_sizeof (dtype packed) = Some 4%N.
Proof.
  exists (mkNDArray [2%N] Demo.kFloat32
            (get_binary_row (dptr (Demo.ones [2; 32]%N)) 64%N)).
  destruct (C5_dtype_kept (Demo.ones [2; 32]%N)
              (mkNDArray [2%N] Demo.kFloat32
                 (get_binary_row (dptr (Demo.ones [2; 32]%N)) 64%N)))
    as (Hd & Hs & _); [vm_compute; reflexivity|].
  split_and!; [vm_compute; reflexivity | exact Hd | exact Hs].
Defined.

(** C6, as stated, fails: a node whose "op" member is a number does not
    abort the annotator; the node is skipped, the run returns 0 and the output
    file is written. *)
Lemma C6_counterexample :
  (annotate Demo.numeric_graph Demo.world0).1 = Returned Demo.numeric_graph ∧
  (convert_json_file "./num-symbol.json" "./binarized_num-symbol.json"
                     Demo.world0).1 = Returned 0 ∧
  is_Some (files (convert_json_file "./num-symbol.json"
                    "./binarized_num-symbol.json" Demo.world0).2
           !! "./binarized_num-symbol.json").
Proof.
  split_and!; [by vm_compute | by vm_compute |].
  eexists. vm_compute. reflexivity.
Qed.

Lemma C6_malformed_aborts_witness :
  ∃ w', convert_json_file "./bare-symbol.json" "./binarized_bare-symbol.json"
                          Demo.world0 = (Aborted, w') ∧
        files w' = files Demo.world0.
Proof.
  apply (C6_malformed_aborts "./bare-symbol.json" "./binarized_bare-symbol.json"
           Demo.world0 "bare"); [vm_compute; reflexivity|].
  apply (no_attr _ [kObjectType [("op", kStringType "QConvolution");
                                 ("name", kStringType "c0")]]
                 (kObjectType [("op", kStringType "QConvolution");
                               ("name", kStringType "c0")]));
    [reflexivity | apply list_elem_of_here | reflexivity | reflexivity].
Defined.

Lemma C7_odd_dimension_witness :
  ∃ r w', convert_params_file "odd-0001.params" "out.params" Demo.world0 = (r, w') ∧
          fatal r ∧ files w' = files Demo.world0.
Proof.
  apply (C7_odd_dimension "odd-0001.params" "out.params" Demo.world0 "odd"
           Demo.odd_checkpoint.1 Demo.odd_checkpoint.2 1
           "qfullyconnected0_weight" (Demo.ones [4; 33]%N) 33%N);
    [vm_compute; reflexivity | reflexivity | reflexivity | reflexivity
    | right; exists "", "0_weight"; reflexivity
    | exists "qfullyconnected0_", ""; reflexivity
    | reflexivity | vm_compute; discriminate].
Defined.

Lemma C8_not_a_weight_witness :
  ∃ r w', convert_params_file "bias-0001.params" "out.params" Demo.world0 = (r, w') ∧
          fatal r ∧ files w' = files Demo.world0.
Proof.
  apply (C8_not_a_weight "bias-0001.params" "out.params" Demo.world0 "bias"
           Demo.bias_checkpoint.1 Demo.bias_checkpoint.2 1
           "qfullyconnected0_bias" (Demo.ones [4]%N));
    [vm_compute; reflexivity | reflexivity | reflexivity | reflexivity
    | right; exists "", "0_bias"; reflexivity
    | ].
  intros H. apply containsSubString_substring in H. vm_compute in H. discriminate.
Defined.

Lemma C9_missing_graph_witness :
  (main ["model-converter"; "net-0001.params"] Demo.lonely_world).1 = Returned 1.
Proof.
  destruct (C9_missing_graph "model-converter" "net-0001.params" Demo.lonely_world 3
              (Returned 0)
              (convert_params_file "net-0001.params" "./binarized_net-0001.params"
                                   Demo.lonely_world).2)
    as [Hgraph _]; [reflexivity | vm_compute; reflexivity |].
  destruct Hgraph as (w2 & _ & _ & _ & Hmain); [vm_compute; reflexivity|].
  destruct (Hmain eq_refl) as [Hrun _]. rewrite Hrun. reflexivity.
Defined.

Lemma C10_returns_only_0_witness :
  match (convert_params_file "net-0001.params" "out.params" Demo.world0).1 with
  | Returned r => r
  | _ => 1
  end = 0.
Proof.
  refine (proj1 (C10_returns_only_0 "net-0001.params" "out.params" Demo.world0 _
                   (convert_params_file "net-0001.params" "out.params"
                                        Demo.world0).2 _)).
  vm_compute. reflexivity.
Defined.

End Runs.

(* ===================================================================== *)
(** * Further properties of the weight packer *)
(* ===================================================================== *)

Section PackerMore.
Context {X : xnor_cpu} {MX : mxnet}.

(** A run whose input cannot be opened, or fails one of Load's CHECKs. *)
Lemma convert_params_file_unloaded input_file output_file w :
  files w !! input_file = None ∨
  (∃ bytes, files w !! input_file = Some bytes ∧ NDArray_Load bytes = None) →
  convert_params_file input_file output_file w
  = (Thrown, World (files w) (unwritable w)
                   (stdout w ++ ["loading " +:+ input_file +:+ "..."])).
Proof.
  unfold convert_params_file, load_params. run_prog.
  intros [-> | (bytes & -> & ->)]; done.
Qed.

(** What the loop prints when it runs through. *)
Lemma convert_loop_stdout (keys l : list string) :
  ∀ data w data' w',
    convert_loop keys (find_if containsFilterString l) data w = (Returned data', w') →
    stdout w' = stdout w ++ map converting_line (List.filter containsFilterString l).
Proof.
  induction l as [|key l IH]; intros data w data' w'.
  - simpl. simp convert_loop. intros [= _ <-]. by rewrite app_nil_r.
  - simpl. destruct (containsFilterString key) eqn:Hsel; [|apply IH].
    simp convert_loop. run_prog.
    destruct (containsSubString key "weight"); simpl; [|done].
    destruct (data !! _) as [array|]; simpl; [|done].
    destruct (convert_to_binary array) as [converted| | |]; simpl; try done.
    intros H. apply IH in H. rewrite H. simpl.
    by rewrite <- app_assoc.
Qed.

(** The pass leaves a checkpoint without selected keys alone. *)
Lemma pack_from_unselected (rest : list string) :
  Forall (fun key => containsFilterString key = false) rest →
  ∀ i data, pack_from rest i data = Returned data.
Proof.
  induction 1 as [|key rest Hkey _ IH]; intros i data; simpl; [done|].
  rewrite Hkey. apply IH.
Qed.

(** Either the run returns 0 and exactly the output path has been written,
    or it does not return and every file is as it was. *)
Lemma convert_params_file_frame input_file output_file w r w' :
  convert_params_file input_file output_file w = (r, w') →
  unwritable w' = unwritable w ∧
  ((∃ data keys, r = Returned 0 ∧
                 files w' = <[output_file := NDArray_Save data keys]> (files w)) ∨
   ((∀ z, r ≠ Returned z) ∧ files w' = files w)).
Proof.
  intros Hrun.
  destruct (files w !! input_file) as [bytes|] eqn:Hfile; cycle 1.
  { rewrite convert_params_file_unloaded in Hrun by auto.
    injection Hrun as <- <-. split; [done|]. by right. }
  destruct (NDArray_Load bytes) as [[data keys]|] eqn:Hload; cycle 1.
  { rewrite convert_params_file_unloaded in Hrun by eauto.
    injection Hrun as <- <-. split; [done|]. by right. }
  destruct (convert_params_file_loaded input_file output_file w bytes data keys
              Hfile Hload) as (w1 & Hf & Hu & Hcase).
  destruct (pack_from keys 0 data) as [data'| | |];
    rewrite Hcase in Hrun;
    try (injection Hrun as <- <-; split; [done|]; by right).
  destruct (bool_decide (output_file ∉ unwritable w));
    injection Hrun as <- <-; simpl; (split; [done|]).
  - left. exists data', keys. by rewrite Hf.
  - by right.
Qed.

(** The packed tensor fails the assert on the number of dimensions. *)
Lemma convert_to_binary_again (array packed : NDArray) :
  convert_to_binary array = Returned packed →
  convert_to_binary packed = Aborted.
Proof.
  intros H. apply convert_to_binary_Returned in H as (Hsz & _ & _ & ->).
  unfold convert_to_binary. simpl. rewrite Hsz. run_outcome.
  by rewrite N.eqb_refl.
Qed.

(** X1: a tensor that has been packed cannot be packed again: the result of
    [convert_to_binary] has one dimension and the type flag of its source,
    so a second call passes the size assert and aborts on the assert that
    asks for two dimensions. *)
Theorem X1_packed_is_not_packable (array packed : NDArray) :
  convert_to_binary array = Returned packed →
  mshadow_sizeof (dtype packed) = Some (sizeof_BINARY_WORD word) ∧
  ndim (shape packed) = 1%nat ∧
  convert_to_binary packed = Aborted.
Proof.
  intros H. split_and!; [| |by eapply convert_to_binary_again].
  - by apply convert_to_binary_Returned in H as (Hsz & _ & _ & ->).
  - by apply convert_to_binary_Returned in H as (_ & _ & _ & ->).
Qed.

(** X2: the loop run again on what it produced stops the process as soon as
    one key passes the filter. *)
Theorem X2_loop_not_idempotent keys data w data' w' key :
  convert_loop keys (find_if containsFilterString keys) data w = (Returned data', w') →
  key ∈ keys → names_layer key →
  ∃ r w'', convert_loop keys (find_if containsFilterString keys) data' w' = (r, w'') ∧
           fatal r.
Proof.
  intros Hrun Hin Hname.
  destruct (convert_loop_pass keys keys ltac:(lia) data w) as (w1 & Hpass & _).
  rewrite Hrun in Hpass. injection Hpass as Hpass _.
  rewrite Nat.sub_diag in Hpass. symmetry in Hpass.
  destruct (convert_loop_pass keys keys ltac:(lia) data' w') as (w2 & Hpass2 & _).
  rewrite Nat.sub_diag in Hpass2.
  exists (pack_from keys 0 data'), w2. split; [done|].
  apply list_elem_of_lookup in Hin as [i Hi].
  apply containsFilterString_substring in Hname.
  apply pack_from_Returned in Hpass as (_ & _ & _ & Hin).
  specialize (Hin i key Hi). rewrite Hname in Hin. simpl in Hin.
  destruct Hin as (_ & array & converted & _ & Hconv & Hd).
  eapply (pack_from_fatal keys 0 i); [done|done|done|].
  right. left. by eapply convert_to_binary_again.
Qed.

(** X3: a checkpoint in which no key contains "qconvolution" or
    "qfullyconnected" (in particular one without keys) is written out as it
    was loaded, and the run returns 0. *)
Theorem X3_nothing_selected input_file output_file w bytes data keys :
  files w !! input_file = Some bytes →
  NDArray_Load bytes = Some (data, keys) →
  (∀ key, key ∈ keys → ¬ names_layer key) →
  output_file ∉ unwritable w →
  ∃ w', convert_params_file input_file output_file w = (Returned 0, w') ∧
        files w' = <[output_file := NDArray_Save data keys]> (files w) ∧
        stdout w' = stdout w ++ ["loading " +:+ input_file +:+ "...";
                                 "wrote converted params to " +:+ output_file].
Proof.
  intros Hfile Hload Hnone Hout.
  assert (Forall (fun key => containsFilterString key = false) keys) as Hall.
  { apply Forall_forall. intros key Hin.
    destruct (containsFilterString key) eqn:E; [|done].
    apply containsFilterString_substring in E. by destruct (Hnone key Hin). }
  unfold convert_params_file, load_params, save_params. run_prog.
  rewrite Hfile, Hload.
  match goal with |- context [convert_loop keys ?it data ?w0] =>
    pose proof (convert_loop_stdout keys keys data w0) as Hprint;
    destruct (convert_loop_pass keys keys ltac:(lia) data w0)
      as (w1 & Hloop & Hf & Hu) end.
  rewrite Nat.sub_diag, (pack_from_unselected keys Hall) in Hloop.
  specialize (Hprint _ _ Hloop). rewrite Hloop.
  assert (List.filter containsFilterString keys = []) as Hfilter.
  { clear -Hall. induction Hall as [|key keys Hk _ IH]; simpl; [done|].
    by rewrite Hk. }
  rewrite Hfilter in Hprint. simpl in *. rewrite app_nil_r in Hprint.
  rewrite Hu, bool_decide_true by done.
  eexists. split; [done|]. simpl. rewrite Hf, Hprint.
  split; [done|]. by rewrite <- app_assoc.
Qed.

(** X4: the packer writes all or nothing.  Whatever the outcome, no path
    other than the output path changes; when the run does not return, no
    file changes at all; and the set of unwritable paths is never touched. *)
Theorem X4_packer_all_or_nothing input_file output_file w r w' :
  convert_params_file input_file output_file w = (r, w') →
  unwritable w' = unwritable w ∧
  (∀ path, path ≠ output_file → files w' !! path = files w !! path) ∧
  (r ≠ Returned 0 → files w' = files w) ∧
  (r = Returned 0 → is_Some (files w' !! output_file)).
Proof.
  intros Hrun.
  apply convert_params_file_frame in Hrun
    as (Hu & [(data & keys & -> & Hf) | (Hr & Hf)]); rewrite Hf.
  - split_and!; [done| |done|].
    + intros path Hne. by rewrite lookup_insert_ne.
    + intros _. rewrite lookup_insert_eq. by eexists.
  - split_and!; [done|done|done|]. intros ->. by destruct (Hr 0).
Qed.

(** X5: when the input cannot be opened, or NDArray::Load rejects it, the
    run ends with an uncaught exception right after the "loading" line:
    nothing else is printed and no file is written. *)
Theorem X5_input_unreadable input_file output_file w :
  files w !! input_file = None ∨
  (∃ bytes, files w !! input_file = Some bytes ∧ NDArray_Load bytes = None) →
  ∃ w', convert_params_file input_file output_file w = (Thrown, w') ∧
        files w' = files w ∧
        stdout w' = stdout w ++ ["loading " +:+ input_file +:+ "..."].
Proof.
  intros H. eexists. by rewrite (convert_params_file_unloaded _ _ _ H).
Qed.

(** X6: when the output path cannot be opened for writing, the run never
    returns (the open fails a CHECK after the whole conversion, unless the
    conversion has already stopped the process) and no file is written. *)
Theorem X6_output_unwritable input_file output_file w r w' :
  output_file ∈ unwritable w →
  convert_params_file input_file output_file w = (r, w') →
  (∀ z, r ≠ Returned z) ∧ files w' = files w.
Proof.
  intros Hro Hrun.
  destruct r as [z| | |]; cycle 1.
  1-3: split; [done|];
       apply convert_params_file_frame in Hrun as (_ & [(? & ? & ? & _) | [_ ?]]);
       done.
  apply convert_params_file_Returned in Hrun
    as (? & ? & ? & ? & _ & _ & _ & Hw & _). done.
Qed.

(** X7: on a run that returns, the standard output lists the "loading" line,
    then one "converting weights" line for each key that passes the filter,
    in the order of the checkpoint, then the "wrote" line. *)
Theorem X7_packer_report input_file output_file w r w' :
  convert_params_file input_file output_file w = (Returned r, w') →
  ∃ bytes data keys,
    files w !! input_file = Some bytes ∧
    NDArray_Load bytes = Some (data, keys) ∧
    stdout w' = stdout w
                ++ ["loading " +:+ input_file +:+ "..."]
                ++ map converting_line (List.filter containsFilterString keys)
                ++ ["wrote converted params to " +:+ output_file].
Proof.
  unfold convert_params_file, load_params, save_params. run_prog.
  destruct (files w !! input_file) as [bytes|] eqn:Hfile; [|done].
  destruct (NDArray_Load bytes) as [[data keys]|] eqn:Hload; [|done].
  destruct (convert_loop _ _ _ _) as [[data'| | |] w1] eqn:Hloop; try done.
  apply convert_loop_stdout in Hloop.
  destruct (bool_decide _); [|done]. intros [= _ <-].
  exists bytes, data, keys. split_and!; [done|done|]. simpl.
  simpl in Hloop. rewrite Hloop, <- !app_assoc. reflexivity.
Qed.

End PackerMore.

(* ===================================================================== *)
(** * Further properties of the graph annotator *)
(* ===================================================================== *)

Lemma assign_first_same name x members :
  FindMember name members = Some x → assign_first name x members = members.
Proof.
  induction members as [|[n v] members IH]; simpl; [done|].
  destruct (decide (n = name)); [by intros [= ->]|].
  intros H. by rewrite IH.
Qed.

Lemma annotated_document_cases d :
  annotated_document d = Aborted ∨ ∃ d', annotated_document d = Returned d'.
Proof.
  unfold annotated_document. run_outcome.
  destruct d as [| | |members| | |]; auto.
  destruct (FindMember "nodes" members) as [[| | | |nodes| |]|]; auto.
  destruct (annotated_all nodes) as [nodes'| | |] eqn:Hall; eauto.
  - assert (annotated_all nodes ≠ Thrown) as Hno; [|done]. clear Hall.
    induction nodes as [|node nodes IH]; simpl; [done|]. run_outcome.
    destruct (annotated_cases node) as [-> | [n' ->]]; [done|].
    by destruct (annotated_all nodes).
  - assert (annotated_all nodes ≠ Undefined) as Hno; [|done]. clear Hall.
    induction nodes as [|node nodes IH]; simpl; [done|]. run_outcome.
    destruct (annotated_cases node) as [-> | [n' ->]]; [done|].
    by destruct (annotated_all nodes).
Qed.

(** What one node makes the annotator print. *)
Lemma annotate_node_stdout node w node' w' :
  annotate_node node w = (Returned node', w') →
  files w' = files w ∧ stdout w' = stdout w ++ adjusting_lines node.
Proof.
  unfold annotate_node, adjusting_lines. run_prog. run_outcome.
  destruct (is_quantized_op node) as [[|]| | |]; simpl; try done; cycle 1.
  { intros [= _ <-]. by rewrite app_nil_r. }
  destruct node as [| | |members| | |]; simpl; try done.
  destruct (FindMember "attr" members) as [[| | |attrs| | |]|]; simpl; try done.
  rewrite FindMember_assign_other by done.
  destruct (FindMember "name" members) as [[| | | | |name|]|]; simpl; try done.
  by intros [= _ <-].
Qed.

Lemma annotate_nodes_stdout nodes :
  ∀ w nodes' w', annotate_nodes nodes w = (Returned nodes', w') →
    stdout w' = stdout w ++ concat (adjusting_lines <$> nodes).
Proof.
  induction nodes as [|node nodes IH]; intros w nodes' w'; simpl.
  - intros [= _ <-]. by rewrite app_nil_r.
  - run_prog.
    destruct (annotate_node node w) as [[node1| | |] w1] eqn:Hnode; try done.
    apply annotate_node_stdout in Hnode as [_ Hnode].
    destruct (annotate_nodes nodes w1) as [[nodes1| | |] w2] eqn:Hrest; try done.
    apply IH in Hrest. intros [= _ <-].
    by rewrite Hrest, Hnode, <- app_assoc.
Qed.

Lemma annotate_nodes_unmatched nodes w :
  (∀ node, node ∈ nodes → is_quantized_op node = Returned false) →
  annotate_nodes nodes w = (Returned nodes, w).
Proof.
  induction nodes as [|node nodes IH]; intros Hall; simpl; [done|]. run_prog.
  unfold annotate_node at 1. run_prog.
  rewrite (Hall node) by apply list_elem_of_here. simpl.
  rewrite IH; [done|]. intros n Hn. apply Hall. by apply list_elem_of_further.
Qed.

(** X8: a document none of whose nodes is a quantized layer goes through the
    annotator unchanged, and nothing is printed. *)
Theorem X8_no_quantized_node members nodes w :
  FindMember "nodes" members = Some (kArrayType nodes) →
  (∀ node, node ∈ nodes → is_quantized_op node = Returned false) →
  annotate (kObjectType members) w = (Returned (kObjectType members), w).
Proof.
  intros Hnodes Hall.
  unfold annotate, HasMember, member. run_prog. run_outcome.
  rewrite Hnodes. simpl. rewrite (annotate_nodes_unmatched nodes w Hall).
  by rewrite (assign_first_same _ _ _ Hnodes).
Qed.

(** X9: the annotator handles a node exactly when the node is an object
    whose first "op" member is a string that reads, as a C string (up to its
    first NUL), "QConvolution" or "QFullyConnected".  The comparison is case
    sensitive and ignores what follows an embedded NUL. *)
Theorem X9_match_is_C_string_equality node :
  is_quantized_op node = Returned true ↔
  ∃ s, op_field node = Some (kStringType s) ∧
       (c_str s = "QConvolution" ∨ c_str s = "QFullyConnected").
Proof.
  rewrite is_quantized_op_true.
  split; intros (s & Hop & H); exists s; (split; [done|]);
    destruct H as [H|H]; [left|right|left|right];
    first [by apply strcmp_0 in H | by apply strcmp_0].
Qed.

(** X10: on a run of the annotator that returns, the standard output gains
    one "adjusting attributes" line for each node it handles, with the
    node's name as a C string, in document order. *)
Theorem X10_annotator_report d w d' w' :
  annotate d w = (Returned d', w') →
  ∃ members nodes,
    d = kObjectType members ∧
    FindMember "nodes" members = Some (kArrayType nodes) ∧
    files w' = files w ∧
    stdout w' = stdout w ++ concat (adjusting_lines <$> nodes).
Proof.
  intros Hrun. destruct (annotate_pure d w) as (w1 & Hpure & Hf & _).
  pose proof Hrun as Hrun'. rewrite Hpure in Hrun'. injection Hrun' as _ ->.
  revert Hrun. unfold annotate, HasMember, member. run_prog. run_outcome.
  destruct d as [| | |members| | |]; try done.
  destruct (FindMember "nodes" members) as [[| | | |nodes| |]|] eqn:Hn; try done.
  simpl. destruct (annotate_nodes nodes w) as [[nodes'| | |] w2] eqn:Hloop; try done.
  intros [= _ <-]. exists members, nodes. split_and!; try done.
  by eapply annotate_nodes_stdout.
Qed.

(* ===================================================================== *)
(** * Further properties of the driver *)
(* ===================================================================== *)

Lemma string_app_inj_l a x y : a +:+ x = a +:+ y → x = y.
Proof. induction a as [|c a IH]; simpl; [done|]. intros [= H]. by apply IH. Qed.

Lemma string_length_app a b :
  String.length (a +:+ b) = (String.length a + String.length b)%nat.
Proof. induction a as [|c a IH]; simpl; [done|]. by rewrite IH. Qed.

Lemma rfind_app_Some a c r : rfind (a +:+ String c r) c ≠ None.
Proof.
  induction a as [|d a IH]; simpl.
  - destruct (rfind r c); [done|]. by rewrite Ascii.eqb_refl.
  - by destruct (rfind (a +:+ String c r) c).
Qed.

(** The last occurrence of a character splits a string in one way only. *)
Lemma last_split_unique c a r a' r' :
  a +:+ String c r = a' +:+ String c r' →
  rfind r c = None → rfind r' c = None → a = a' ∧ r = r'.
Proof.
  revert a'. induction a as [|d a IH]; intros [|d' a']; simpl.
  - by intros [= ->].
  - intros [= <- ->] H. by destruct (rfind_app_Some a' c r').
  - intros [= -> <-] _ H. by destruct (rfind_app_Some a c r).
  - intros [= <- H] H1 H2. by destruct (IH _ H H1 H2) as [-> ->].
Qed.

Lemma rfind_split s c pos :
  rfind s c = Some pos →
  ∃ rest, s = erase s pos +:+ String c rest ∧ rfind rest c = None.
Proof.
  revert pos. induction s as [|d s IH]; intros pos; simpl; [done|].
  destruct (rfind s c) as [i|] eqn:Hr.
  - intros [= <-]. destruct (IH i eq_refl) as (rest & Hs & Hrest).
    exists rest. split; [|done].
    change (String d s = String d (erase s i +:+ String c rest)). by f_equal.
  - destruct (Ascii.eqb_spec d c) as [->|]; [|done].
    intros [= <-]. by exists s.
Qed.

(** The packer's output name is never the name of the graph file: the first
    ends in the part after the last hyphen, the second in "symbol.json", and
    the parts before differ by "binarized_". *)
Lemma output_name_not_graph_name name pos :
  rfind name "-"%char = Some pos →
  "binarized_" +:+ name ≠ erase name pos +:+ "-symbol.json".
Proof.
  intros Hr Heq. destruct (rfind_split _ _ _ Hr) as (rest & Hname & Hrest).
  rewrite Hname in Heq at 1.
  change ("binarized_" +:+ erase name pos +:+ String "-" rest)
    with (("binarized_" +:+ erase name pos) +:+ String "-" rest) in Heq.
  apply last_split_unique in Heq as [Heq _]; [|done|done].
  apply (f_equal String.length) in Heq.
  rewrite string_length_app in Heq. simpl in Heq. lia.
Qed.

Section DriverMore.
Context {X : xnor_cpu} {MX : mxnet} {RJ : rapidjson} {LG : libgen}.

Lemma annotate_fst d w : (annotate d w).1 = annotated_document d.
Proof. destruct (annotate_pure d w) as (w' & -> & _). done. Qed.

(** The annotator returns 0 having written exactly the output path, or
    returns -1 or aborts having written nothing. *)
Lemma convert_json_file_frame input_fname output_fname w r w' :
  convert_json_file input_fname output_fname w = (r, w') →
  unwritable w' = unwritable w ∧
  ((∃ d, r = Returned 0 ∧
         files w' = <[output_fname := c_str (Accept d)]> (files w)) ∨
   ((r = Returned (-1) ∨ r = Aborted) ∧ files w' = files w)).
Proof.
  intros Hrun.
  destruct (files w !! input_fname) as [json|] eqn:Hfile; cycle 1.
  { rewrite convert_json_file_missing in Hrun by done.
    injection Hrun as <- <-. split; [done|]. right. auto. }
  destruct (convert_json_file_read input_fname output_fname w json Hfile)
    as (w1 & Hf & Hu & Hcase).
  destruct (annotated_document_cases (Parse (c_str json))) as [Hd | [d Hd]];
    rewrite Hd in Hcase; rewrite Hcase in Hrun.
  - injection Hrun as <- <-. split; [done|]. right. auto.
  - destruct (bool_decide (output_fname ∉ unwritable w));
      injection Hrun as <- <-; simpl; (split; [done|]).
    + left. exists d. by rewrite Hf.
    + right. auto.
Qed.

(** [main] with two arguments and a hyphen in the file name: the two stages
    in sequence. *)
Lemma main_stages argv0 argv1 w pos :
  let path := (dirname argv1).1 in
  let params_file_name := basename (dirname argv1).2 in
  let base_name := erase params_file_name pos in
  rfind params_file_name "-"%char = Some pos →
  main [argv0; argv1] w
  = (r0 ← convert_params_file argv1
             (path +:+ "/" +:+ "binarized_" +:+ params_file_name);
     if decide (ne0 r0 = 0)
     then (r1 ← convert_json_file
                  (path +:+ "/" +:+ base_name +:+ "-symbol.json")
                  (path +:+ "/" +:+ "binarized_" +:+ base_name +:+ "-symbol.json");
           if decide (ne0 r1 = 0) then mret 0 else mret (ne0 r1))
     else mret (ne0 r0)) w.
Proof.
  intros path params_file_name base_name Hrfind. unfold main.
  subst path params_file_name base_name.
  destruct (dirname argv1) as [p a] eqn:Hd. simpl in *. by rewrite Hrfind.
Qed.

(** X11: the annotator writes all or nothing, and reports failure in two
    ways only.  It returns 0 after writing the output path, or returns -1,
    or aborts; in the last two cases no file changes, and in every case no
    path other than the output path changes.  It never throws. *)
Theorem X11_annotator_all_or_nothing input_fname output_fname w r w' :
  convert_json_file input_fname output_fname w = (r, w') →
  (r = Returned 0 ∨ r = Returned (-1) ∨ r = Aborted) ∧
  unwritable w' = unwritable w ∧
  (∀ path, path ≠ output_fname → files w' !! path = files w !! path) ∧
  (r ≠ Returned 0 → files w' = files w) ∧
  (r = Returned 0 → is_Some (files w' !! output_fname)).
Proof.
  intros Hrun.
  apply convert_json_file_frame in Hrun
    as (Hu & [(d & -> & Hf) | (Hr & Hf)]); rewrite Hf.
  - split_and!; [by left|done| |done|].
    + intros path Hne. by rewrite lookup_insert_ne.
    + intros _. rewrite lookup_insert_eq. by eexists.
  - split_and!; [by right|done|done|done|].
    intros ->. by destruct Hr.
Qed.

(** X12: when the graph file is read and annotated but the output path
    cannot be opened for writing, the annotator prints "cant find json file
    at" with the output path, returns -1 and writes nothing. *)
Theorem X12_annotator_output_unwritable input_fname output_fname w json d :
  files w !! input_fname = Some json →
  (annotate (Parse (c_str json)) w).1 = Returned d →
  output_fname ∈ unwritable w →
  ∃ w', convert_json_file input_fname output_fname w = (Returned (-1), w') ∧
        files w' = files w ∧
        last (stdout w') = Some ("cant find json file at " +:+ output_fname).
Proof.
  intros Hfile Hd Hro. rewrite annotate_fst in Hd.
  destruct (convert_json_file_read input_fname output_fname w json Hfile)
    as (w1 & Hf & Hu & Hcase).
  rewrite Hd, bool_decide_false in Hcase by (intros H; by apply H).
  eexists. split; [exact Hcase|]. simpl. split; [done|]. by rewrite last_snoc.
Qed.

(** X13: a successful run of the annotator writes, at the output path, the
    C string of the Writer's text for the annotated document parsed from the
    C string of the input file. *)
Theorem X13_annotator_output input_fname output_fname w w' :
  convert_json_file input_fname output_fname w = (Returned 0, w') →
  ∃ json d,
    files w !! input_fname = Some json ∧
    (annotate (Parse (c_str json)) w).1 = Returned d ∧
    (output_fname ∉ unwritable w) ∧
    files w' = <[output_fname := c_str (Accept d)]> (files w).
Proof.
  intros Hrun.
  destruct (files w !! input_fname) as [json|] eqn:Hfile; cycle 1.
  { by rewrite convert_json_file_missing in Hrun. }
  destruct (convert_json_file_read input_fname output_fname w json Hfile)
    as (w1 & Hf & Hu & Hcase).
  destruct (annotated_document (Parse (c_str json))) as [d| | |] eqn:Hd;
    rewrite Hcase in Hrun; try done.
  destruct (bool_decide_reflect (output_fname ∉ unwritable w)); [|done].
  injection Hrun as <-. exists json, d. rewrite annotate_fst. simpl.
  by rewrite Hf.
Qed.

(** X14: the annotator aborts, writing nothing, when the parsed document is
    not an object (which is what a parse error leaves), and when a node it
    handles has an "attr" member that is not an object, has no "name"
    member, or has a "name" member that is not a string. *)
Theorem X14_annotator_aborts input_fname output_fname w json :
  files w !! input_fname = Some json →
  IsObject (Parse (c_str json)) = false ∨
  (∃ nodes node,
     member (Parse (c_str json)) "nodes" = Returned (kArrayType nodes) ∧
     node ∈ nodes ∧ is_quantized_op node = Returned true ∧
     ((∃ v, member node "attr" = Returned v ∧ IsObject v = false) ∨
      HasMember node "name" = Returned false ∨
      (∃ v, member node "name" = Returned v ∧ IsString v = false))) →
  ∃ w', convert_json_file input_fname output_fname w = (Aborted, w') ∧
        files w' = files w.
Proof.
  intros Hfile Hbad.
  destruct (convert_json_file_read input_fname output_fname w json Hfile)
    as (w1 & Hf & _ & Hcase).
  assert (annotated_document (Parse (c_str json)) = Aborted) as Hd; cycle 1.
  { rewrite Hd in Hcase. by exists w1. }
  destruct Hbad as [Hobj | (nodes & node & Hnodes & Hin & Hq & Hnode)].
  { by destruct (Parse (c_str json)). }
  unfold annotated_document. unfold member, mret, outcome_ret in Hnodes.
  destruct (Parse (c_str json)) as [| | |members| | |]; try done.
  destruct (FindMember "nodes" members) as [v|]; [|done].
  injection Hnodes as ->. run_outcome.
  rewrite (annotated_all_Aborted nodes node); [done|done|].
  unfold annotated. rewrite Hq. run_outcome.
  unfold member, HasMember, mret, outcome_ret in Hnode.
  destruct node as [| | |m| | |]; try done.
  destruct Hnode as [(v & Hv & Hobj) | [Hname | (v & Hv & Hstr)]].
  - destruct (FindMember "attr" m) as [a|]; [|done]. injection Hv as ->.
    by destruct v.
  - destruct (FindMember "name" m); [done|].
    by destruct (FindMember "attr" m) as [[]|].
  - destruct (FindMember "name" m) as [n|]; [|done]. injection Hv as ->.
    destruct (FindMember "attr" m) as [[]|]; try done. by destruct v.
Qed.

(** X15: with an argument count other than 2, [main] prints the three usage
    lines, returns -1 and runs neither stage. *)
Theorem X15_usage argv0 rest w :
  length rest ≠ 1%nat →
  main (argv0 :: rest) w
  = (Returned (-1), World (files w) (unwritable w) (stdout w ++ usage argv0)).
Proof.
  intros Hlen. destruct rest as [|argv1 [|argv2 rest]]; [|done|];
    unfold main, usage; run_prog; by rewrite <- !app_assoc.
Qed.

(** X16: when the file name of the argument has no hyphen, [erase] throws
    std::out_of_range before either stage runs: the process ends with
    nothing printed and nothing written. *)
Theorem X16_no_hyphen argv0 argv1 w :
  rfind (basename (dirname argv1).2) "-"%char = None →
  main [argv0; argv1] w = (Thrown, w).
Proof.
  intros Hr. unfold main. destruct (dirname argv1) as [p a]. simpl in *.
  by rewrite Hr.
Qed.

(** X17: the values [main] returns.  With two arguments it returns 0 or 1
    (a -1 of the annotator becomes 1, the truth value of the comparison);
    in all other cases it returns -1. *)
Theorem X17_main_return_values argv w r w' :
  main argv w = (Returned r, w') →
  (length argv = 2%nat ∧ (r = 0 ∨ r = 1)) ∨ (length argv ≠ 2%nat ∧ r = -1).
Proof.
  destruct argv as [|argv0 [|argv1 [|argv2 rest]]]; [done| | |].
  - unfold main. run_prog. intros [= <- _]. by right.
  - intros Hrun. left. split; [done|].
    destruct (rfind (basename (dirname argv1).2) "-"%char) as [pos|] eqn:Hr;
      cycle 1.
    { revert Hrun. unfold main. destruct (dirname argv1) as [p a]. simpl in *.
      by rewrite Hr. }
    rewrite (main_stages _ _ _ pos Hr) in Hrun. revert Hrun. run_prog.
    assert (∀ z, ne0 z = 0 ∨ ne0 z = 1) as Hne0
      by (intros z; unfold ne0; destruct (decide (z = 0)); auto).
    destruct (convert_params_file _ _ _) as [[r0| | |] w1]; try done.
    destruct (decide (ne0 r0 = 0)); simpl; [|intros [= <- _]; apply Hne0].
    destruct (convert_json_file _ _ _) as [[r1| | |] w2]; try done.
    destruct (decide (ne0 r1 = 0)); simpl; intros [= <- _]; [by left|apply Hne0].
  - unfold main. run_prog. intros [= <- _]. by right.
Qed.

Lemma rfind_last a c r :
  rfind r c = None → rfind (a +:+ String c r) c = Some (String.length a).
Proof.
  intros Hr. induction a as [|d a IH]; simpl.
  - by rewrite Hr, Ascii.eqb_refl.
  - by rewrite IH.
Qed.

Lemma erase_app a x : erase (a +:+ x) (String.length a) = a.
Proof. induction a as [|d a IH]; simpl; [by destruct x|]. by rewrite IH. Qed.

(** X18: what [main] leaves alone.  Whatever the outcome, no path other than
    the two output paths changes and the set of unwritable paths is as it
    was; in particular the graph file that the annotator reads is never
    overwritten, since neither output path can coincide with it. *)
Theorem X18_main_frame argv0 argv1 w pos r w' :
  let path := (dirname argv1).1 in
  let params_file_name := basename (dirname argv1).2 in
  let base_name := erase params_file_name pos in
  let output_name := path +:+ "/" +:+ "binarized_" +:+ params_file_name in
  let json_file_name := path +:+ "/" +:+ base_name +:+ "-symbol.json" in
  let json_out_fname :=
    path +:+ "/" +:+ "binarized_" +:+ base_name +:+ "-symbol.json" in
  rfind params_file_name "-"%char = Some pos →
  main [argv0; argv1] w = (r, w') →
  unwritable w' = unwritable w ∧
  (∀ p, p ≠ output_name → p ≠ json_out_fname → files w' !! p = files w !! p) ∧
  files w' !! json_file_name = files w !! json_file_name.
Proof.
  intros path params_file_name base_name output_name json_file_name
    json_out_fname Hr Hrun.
  assert (unwritable w' = unwritable w ∧
          ∀ p, p ≠ output_name → p ≠ json_out_fname →
               files w' !! p = files w !! p) as [Hu Hframe].
  { rewrite (main_stages _ _ _ pos Hr) in Hrun. revert Hrun. run_prog.
    fold path params_file_name base_name output_name json_file_name json_out_fname.
    destruct (convert_params_file argv1 output_name w) as [r0 w1] eqn:Hpack.
    apply convert_params_file_frame in Hpack as (Hu1 & Hf1).
    assert (∀ p, p ≠ output_name → files w1 !! p = files w !! p) as Hp1.
    { intros p Hp. destruct Hf1 as [(? & ? & _ & ->) | [_ ->]]; [|done].
      by rewrite lookup_insert_ne. }
    destruct r0 as [r0| | |]; try (intros [= <- <-]; by auto).
    destruct (decide (ne0 r0 = 0)); simpl; [|intros [= <- <-]; by auto].
    destruct (convert_json_file json_file_name json_out_fname w1)
      as [r1 w2] eqn:Hjson.
    apply convert_json_file_frame in Hjson as (Hu2 & Hf2).
    assert (∀ p, p ≠ json_out_fname → files w2 !! p = files w1 !! p) as Hp2.
    { intros p Hp. destruct Hf2 as [(? & _ & ->) | [_ ->]]; [|done].
      by rewrite lookup_insert_ne. }
    assert (unwritable w2 = unwritable w) as Hu by congruence.
    assert (∀ p, p ≠ output_name → p ≠ json_out_fname →
                 files w2 !! p = files w !! p) as Hp.
    { intros p H1 H2. rewrite Hp2, Hp1; done. }
    destruct r1 as [r1| | |]; try (intros [= <- <-]; by auto).
    destruct (decide (ne0 r1 = 0)); simpl; intros [= <- <-]; by auto. }
  split_and!; [done|done|]. apply Hframe.
  - unfold json_file_name, output_name. intros H.
    do 2 apply string_app_inj_l in H.
    by destruct (output_name_not_graph_name params_file_name pos Hr).
  - unfold json_file_name, json_out_fname. intros H.
    do 2 apply string_app_inj_l in H.
    apply (f_equal String.length) in H.
    rewrite !string_length_app in H. simpl in H. lia.
Qed.

(** X19: when [main] returns 0, the file name had a hyphen, the checkpoint
    and the graph file were readable, and both output files exist
    afterwards. *)
Theorem X19_main_success argv0 argv1 w w' :
  main [argv0; argv1] w = (Returned 0, w') →
  let path := (dirname argv1).1 in
  let params_file_name := basename (dirname argv1).2 in
  ∃ pos, rfind params_file_name "-"%char = Some pos ∧
    is_Some (files w !! argv1) ∧
    is_Some (files w' !! (path +:+ "/" +:+ "binarized_" +:+ params_file_name)) ∧
    is_Some (files w' !! (path +:+ "/" +:+ "binarized_"
                          +:+ erase params_file_name pos +:+ "-symbol.json")).
Proof.
  intros Hrun path params_file_name.
  destruct (rfind params_file_name "-"%char) as [pos|] eqn:Hr; cycle 1.
  { revert Hrun. unfold main. subst path params_file_name.
    destruct (dirname argv1) as [p a]. simpl in *. by rewrite Hr. }
  exists pos. split; [done|].
  rewrite (main_stages _ _ _ pos Hr) in Hrun. revert Hrun. run_prog.
  fold path params_file_name.
  destruct (convert_params_file argv1 _ w) as [[r0| | |] w1] eqn:Hpack; try done.
  pose proof (convert_params_file_returns_0 _ _ _ _ _ Hpack) as ->.
  apply convert_params_file_Returned in Hpack
    as (bytes & data & keys & data' & Hfile & _ & _ & _ & Hf1).
  simpl.
  destruct (convert_json_file _ _ w1) as [r1 w2] eqn:Hjson.
  apply convert_json_file_frame in Hjson
    as (_ & [(d & -> & Hf2) | ([-> | ->] & _)]); simpl; [|done|done].
  intros [= <-]. rewrite Hf2, Hf1. split_and!; [by eexists| |].
  - destruct (decide (path +:+ "/" +:+ "binarized_"
                      +:+ erase params_file_name pos +:+ "-symbol.json"
                      = path +:+ "/" +:+ "binarized_" +:+ params_file_name))
      as [<- | Hne].
    + rewrite lookup_insert_eq. by eexists.
    + rewrite lookup_insert_ne, lookup_insert_eq by done. by eexists.
  - rewrite lookup_insert_eq. by eexists.
Qed.

(** X20: the paths [main] derives.  For a file name of the form
    prefix-suffix with no hyphen in the suffix, the packer writes
    dir/binarized_prefix-suffix, and the annotator reads dir/prefix-symbol.json
    and writes dir/binarized_prefix-symbol.json, where dir is what dirname
    yields. *)
Theorem X20_derived_paths argv0 argv1 w prefix suffix :
  basename (dirname argv1).2 = prefix +:+ String "-" suffix →
  rfind suffix "-"%char = None →
  let path := (dirname argv1).1 in
  main [argv0; argv1] w
  = (r0 ← convert_params_file argv1
             (path +:+ "/" +:+ "binarized_" +:+ prefix +:+ String "-" suffix);
     if decide (ne0 r0 = 0)
     then (r1 ← convert_json_file
                  (path +:+ "/" +:+ prefix +:+ "-symbol.json")
                  (path +:+ "/" +:+ "binarized_" +:+ prefix +:+ "-symbol.json");
           if decide (ne0 r1 = 0) then mret 0 else mret (ne0 r1))
     else mret (ne0 r0)) w.
Proof.
  intros Hname Hsuffix path.
  pose proof (rfind_last prefix "-"%char suffix Hsuffix) as Hr.
  rewrite <- Hname in Hr.
  rewrite (main_stages _ _ _ _ Hr). fold path.
  by rewrite Hname, erase_app.
Qed.

End DriverMore.

(* ===================================================================== *)
(** * Further runs on the concrete build *)
(* ===================================================================== *)

Section MoreRuns.
#[local] Existing Instance Demo.build32.
#[local] Existing Instance Demo2.demo2_mxnet.
#[local] Existing Instance Demo2.demo2_rapidjson.
#[local] Existing Instance Demo.demo_libgen.

Lemma X1_packed_is_not_packable_witness :
  ∃ packed, convert_to_binary (Demo.ones [2; 32]%N) = Returned packed ∧
            convert_to_binary packed = Aborted.
Proof.
  eexists. split; [vm_compute; reflexivity|].
  apply (X1_packed_is_not_packable (Demo.ones [2; 32]%N)).
  vm_compute. reflexivity.
Defined.

Lemma X2_loop_not_idempotent_witness :
  let keys := Demo.good_checkpoint.2 in
  let first := convert_loop keys (find_if containsFilterString keys)
                            Demo.good_checkpoint.1 Demo.world0 in
  ∃ r w'', convert_loop keys (find_if containsFilterString keys)
             (match first.1 with Returned d => d | _ => [] end) first.2 = (r, w'') ∧
           fatal r.
Proof.
  intros keys first.
  apply (X2_loop_not_idempotent keys Demo.good_checkpoint.1 Demo.world0
           (match first.1 with Returned d => d | _ => [] end) first.2
           "qconvolution0_weight").
  - vm_compute. reflexivity.
  - apply list_elem_of_further, list_elem_of_here.
  - left. exists "", "0_weight". reflexivity.
Defined.

Lemma X3_nothing_selected_witness :
  ∃ w', convert_params_file "plain-0001.params" "out.params" Demo2.world2
        = (Returned 0, w') ∧
        files w' = <["out.params" :=
                      NDArray_Save Demo2.plain_checkpoint.1 Demo2.plain_checkpoint.2]>
                   (files Demo2.world2).
Proof.
  destruct (X3_nothing_selected "plain-0001.params" "out.params" Demo2.world2
              "plain" Demo2.plain_checkpoint.1 Demo2.plain_checkpoint.2)
    as (w' & Hrun & Hf & _).
  - vm_compute. reflexivity.
  - reflexivity.
  - intros key Hin Hn. apply containsFilterString_substring in Hn.
    apply elem_of_cons in Hin as [-> | Hin]; [vm_compute in Hn; discriminate|].
    apply elem_of_cons in Hin as [-> | Hin]; [vm_compute in Hn; discriminate|].
    by apply elem_of_nil in Hin.
  - apply (bool_decide_unpack _). vm_compute. exact I.
  - exists w'. split; [exact Hrun | exact Hf].
Defined.

Lemma X4_packer_all_or_nothing_witness :
  let run := convert_params_file "net-0001.params" "out.params" Demo2.world2 in
  unwritable run.2 = unwritable Demo2.world2 ∧
  (∀ path, path ≠ "out.params" → files run.2 !! path = files Demo2.world2 !! path).
Proof.
  intros run.
  destruct (X4_packer_all_or_nothing "net-0001.params" "out.params" Demo2.world2
              run.1 run.2) as (Hu & Hframe & _).
  - apply surjective_pairing.
  - split; [exact Hu | exact Hframe].
Defined.

Lemma X5_input_unreadable_witness :
  ∃ w', convert_params_file "missing.params" "out.params" Demo2.world2 = (Thrown, w') ∧
        files w' = files Demo2.world2 ∧
        stdout w' = stdout Demo2.world2 ++ ["loading missing.params..."].
Proof.
  apply (X5_input_unreadable "missing.params" "out.params" Demo2.world2).
  left. vm_compute. reflexivity.
Defined.

Lemma X6_output_unwritable_witness :
  let run := convert_params_file "net-0001.params" "/ro/out.params" Demo2.world2 in
  (∀ z, run.1 ≠ Returned z) ∧ files run.2 = files Demo2.world2.
Proof.
  intros run.
  apply (X6_output_unwritable "net-0001.params" "/ro/out.params" Demo2.world2).
  - apply (bool_decide_unpack _). vm_compute. exact I.
  - apply surjective_pairing.
Defined.

Lemma X7_packer_report_witness :
  ∃ bytes data keys,
    files Demo2.world2 !! "net-0001.params" = Some bytes ∧
    NDArray_Load bytes = Some (data, keys) ∧
    stdout (convert_params_file "net-0001.params" "out.params" Demo2.world2).2
    = stdout Demo2.world2
      ++ ["loading net-0001.params..."]
      ++ map converting_line (List.filter containsFilterString keys)
      ++ ["wrote converted params to out.params"].
Proof.
  apply (X7_packer_report "net-0001.params" "out.params" Demo2.world2 0).
  vm_compute. reflexivity.
Defined.

Lemma X8_no_quantized_node_witness :
  annotate Demo2.plain_graph Demo2.world2 = (Returned Demo2.plain_graph, Demo2.world2).
Proof.
  apply (X8_no_quantized_node _
           [Demo.node "null" "data" []; Demo.node "Convolution" "c0" []]).
  - reflexivity.
  - intros node Hin.
    apply elem_of_cons in Hin as [-> | Hin]; [vm_compute; reflexivity|].
    apply elem_of_cons in Hin as [-> | Hin]; [vm_compute; reflexivity|].
    by apply elem_of_nil in Hin.
Defined.

Lemma X10_annotator_report_witness :
  ∃ members nodes,
    Demo.small_graph = kObjectType members ∧
    FindMember "nodes" members = Some (kArrayType nodes) ∧
    files (annotate Demo.small_graph Demo2.world2).2 = files Demo2.world2 ∧
    stdout (annotate Demo.small_graph Demo2.world2).2
    = stdout Demo2.world2 ++ concat (adjusting_lines <$> nodes).
Proof.
  apply (X10_annotator_report Demo.small_graph Demo2.world2
           (match (annotate Demo.small_graph Demo2.world2).1 with
            | Returned d => d | _ => kNullType end)).
  vm_compute. reflexivity.
Defined.

Lemma X11_annotator_all_or_nothing_witness :
  let run := convert_json_file "./net-symbol.json" "out.json" Demo2.world2 in
  (run.1 = Returned 0 ∨ run.1 = Returned (-1) ∨ run.1 = Aborted) ∧
  unwritable run.2 = unwritable Demo2.world2 ∧
  (∀ path, path ≠ "out.json" → files run.2 !! path = files Demo2.world2 !! path).
Proof.
  intros run.
  destruct (X11_annotator_all_or_nothing "./net-symbol.json" "out.json"
              Demo2.world2 run.1 run.2) as (Hr & Hu & Hframe & _).
  - apply surjective_pairing.
  - split_and!; [exact Hr | exact Hu | exact Hframe].
Defined.

Lemma X12_annotator_output_unwritable_witness :
  ∃ w', convert_json_file "./net-symbol.json" "/ro/out.json" Demo2.world2
        = (Returned (-1), w') ∧
        files w' = files Demo2.world2 ∧
        last (stdout w') = Some "cant find json file at /ro/out.json".
Proof.
  apply (X12_annotator_output_unwritable "./net-symbol.json" "/ro/out.json"
           Demo2.world2 "small"
           (match (annotate Demo.small_graph Demo2.world2).1 with
            | Returned d => d | _ => kNullType end)).
  - vm_compute. reflexivity.
  - vm_compute. reflexivity.
  - apply (bool_decide_unpack _). vm_compute. exact I.
Defined.

Lemma X13_annotator_output_witness :
  ∃ json d,
    files Demo2.world2 !! "./net-symbol.json" = Some json ∧
    (annotate (Parse (c_str json)) Demo2.world2).1 = Returned d ∧
    ("out.json" ∉ unwritable Demo2.world2) ∧
    files (convert_json_file "./net-symbol.json" "out.json" Demo2.world2).2
    = <["out.json" := c_str (Accept d)]> (files Demo2.world2).
Proof.
  apply (X13_annotator_output "./net-symbol.json" "out.json" Demo2.world2).
  vm_compute. reflexivity.
Defined.

Lemma X14_annotator_aborts_witness :
  (∃ w', convert_json_file "./junk-symbol.json" "out.json" Demo2.world2
         = (Aborted, w') ∧ files w' = files Demo2.world2) ∧
  (∃ w', convert_json_file "./nameless-symbol.json" "out.json" Demo2.world2
         = (Aborted, w') ∧ files w' = files Demo2.world2).
Proof.
  split.
  - apply (X14_annotator_aborts "./junk-symbol.json" "out.json" Demo2.world2 "junk");
      [vm_compute; reflexivity|]. left. reflexivity.
  - apply (X14_annotator_aborts "./nameless-symbol.json" "out.json" Demo2.world2
             "nameless"); [vm_compute; reflexivity|].
    right. eexists _, _. split_and!;
      [reflexivity | apply list_elem_of_here | reflexivity |].
    right. left. reflexivity.
Defined.

Lemma X15_usage_witness :
  main ["model-converter"] Demo2.world2
  = (Returned (-1),
     World (files Demo2.world2) (unwritable Demo2.world2)
           (stdout Demo2.world2 ++ usage "model-converter")).
Proof. apply (X15_usage "model-converter" [] Demo2.world2). simpl. lia. Defined.

Lemma X16_no_hyphen_witness :
  main ["model-converter"; "weights.params"] Demo2.world2 = (Thrown, Demo2.world2).
Proof.
  apply (X16_no_hyphen "model-converter" "weights.params" Demo2.world2).
  reflexivity.
Defined.

Lemma X17_main_return_values_witness :
  let run := main ["model-converter"; "plain-0001.params"] Demo2.world2 in
  ∃ r, run.1 = Returned r ∧ (r = 0 ∨ r = 1).
Proof.
  intros run. exists 1. split; [vm_compute; reflexivity|].
  destruct (X17_main_return_values ["model-converter"; "plain-0001.params"]
              Demo2.world2 1 run.2) as [[_ H] | [H _]].
  - vm_compute. reflexivity.
  - exact H.
  - simpl in H. lia.
Defined.

Lemma X18_main_frame_witness :
  let run := main ["model-converter"; "net-0001.params"] Demo2.world2 in
  files run.2 !! "./net-symbol.json" = files Demo2.world2 !! "./net-symbol.json".
Proof.
  intros run.
  destruct (X18_main_frame "model-converter" "net-0001.params" Demo2.world2 3
              run.1 run.2) as (_ & _ & H).
  - reflexivity.
  - apply surjective_pairing.
  - exact H.
Defined.

Lemma X19_main_success_witness :
  let run := main ["model-converter"; "net-0001.params"] Demo2.world2 in
  is_Some (files run.2 !! "./binarized_net-0001.params") ∧
  is_Some (files run.2 !! "./binarized_net-symbol.json").
Proof.
  intros run.
  destruct (X19_main_success "model-converter" "net-0001.params" Demo2.world2 run.2)
    as (pos & Hpos & _ & H1 & H2).
  - vm_compute. reflexivity.
  - assert (pos = 3%nat) as -> by (vm_compute in Hpos; congruence).
    split; [exact H1 | exact H2].
Defined.

Lemma X20_derived_paths_witness :
  main ["model-converter"; "net-0001.params"] Demo2.world2
  = (r0 ← convert_params_file "net-0001.params" "./binarized_net-0001.params";
     if decide (ne0 r0 = 0)
     then (r1 ← convert_json_file "./net-symbol.json" "./binarized_net-symbol.json";
           if decide (ne0 r1 = 0) then mret 0 else mret (ne0 r1))
     else mret (ne0 r0)) Demo2.world2.
Proof.
  exact (X20_derived_paths "model-converter" "net-0001.params" Demo2.world2
           "net" "0001.params" eq_refl eq_refl).
Defined.

End MoreRuns.
